(** * pino-proxy: routing and fallback-normalisation policy of [main.py]

    A shallow embedding of the FastAPI handlers of [src/main.py] and the
    properties its specification states about them.

    - Python [str] is [string]; the module-level table [INDEX_MAP], the
      tick cache and the attributes of a tick are [gmap]s.
    - Python values that travel through JSON or through the vendor tick are
      the inductive [pyval]; a dict inside such a value keeps its items in
      insertion order.
    - A handler is a computation in the monad [M]: it threads the mutable
      state (the global [td_app], the position in the random stream, the
      number of sleeps elapsed and the trace of observable events) and
      may raise a Python exception.
    - The vendor (the TrueData websocket object and the two REST
      end-points) is an oracle held in the environment [Env]; every call
      to it is recorded in the trace. *)

From Stdlib Require Import ZArith QArith Qabs Qround Ascii String List Sorted Lia Lqa.
From stdpp Require Import gmap strings list fin_maps.

Local Open Scope string_scope.
Local Open Scope Z_scope.

(* ===================================================================== *)
(** ** Python values *)
(* ===================================================================== *)

Local Unset Elimination Schemes.

(** The dynamically typed values the handlers build and receive.  A Python
    [float] is represented by the rational it denotes. *)
Inductive pyval :=
| PNone
| PBool (b : bool)
| PInt (n : Z)
| PFloat (q : Q)
| PStr (s : string)
| PList (l : list pyval)
| PDict (items : list (string * pyval)).

Local Set Elimination Schemes.

(** A dict keeps its items in insertion order, one item per key; a key is
    looked up from the front. *)
Fixpoint assoc (key : string) (items : list (string * pyval)) : option pyval :=
  match items with
  | [] => None
  | (k, v) :: rest => if String.eqb k key then Some v else assoc key rest
  end.

(** Key lookup through a value that is expected to be a dict:
    [Some v] when [v[key]] exists. *)
Definition field (v : pyval) (key : string) : option pyval :=
  match v with
  | PDict items => assoc key items
  | _ => None
  end.

(** [type(v).__name__] *)
Definition type_name (v : pyval) : string :=
  match v with
  | PNone => "NoneType"
  | PBool _ => "bool"
  | PInt _ => "int"
  | PFloat _ => "float"
  | PStr _ => "str"
  | PList _ => "list"
  | PDict _ => "dict"
  end.

(* ===================================================================== *)
(** ** Python string methods used by the router *)
(* ===================================================================== *)

Module PyStr.

(** [s.endswith(suffix)] *)
Definition endswith (s suffix : string) : bool :=
  (String.length suffix <=? String.length s)%nat
  && String.eqb
       (substring (String.length s - String.length suffix)
                  (String.length suffix) s)
       suffix.

(** Left-to-right scan of [s.replace(old, new)] for a non-empty [old]:
    [skip] counts the characters of a match that are still to be
    passed over. *)
Fixpoint replace_from (skip : nat) (old new s : string) : string :=
  match s with
  | EmptyString => EmptyString
  | String c t =>
      match skip with
      | S k => replace_from k old new t
      | O =>
          if String.prefix old s
          then new ++ replace_from (String.length old - 1) old new t
          else String c (replace_from 0 old new t)
      end
  end.

Fixpoint interleave (new s : string) : string :=
  match s with
  | EmptyString => EmptyString
  | String c t => String c (new ++ interleave new t)
  end.

(** [s.replace(old, new)]: every non-overlapping occurrence of [old],
    found from the left, is replaced; an empty [old] matches between
    all characters. *)
Definition replace (old new s : string) : string :=
  match old with
  | EmptyString => new ++ interleave new s
  | _ => replace_from 0 old new s
  end.

(** [s] without its last [n] characters. *)
Definition drop_last (n : nat) (s : string) : string :=
  substring 0 (String.length s - n) s.

End PyStr.

(* ===================================================================== *)
(** ** Router: [INDEX_MAP], [get_clean_symbol], [is_indian_stock] *)
(* ===================================================================== *)

Definition INDEX_MAP : gmap string string :=
  list_to_map
    [ ("^NSEI", "NIFTY 50");
      ("^BSESN", "SENSEX");
      ("NIFTY_50", "NIFTY 50");
      ("NIFTY_BANK", "BANKNIFTY") ].

(** [symbol in INDEX_MAP] *)
Definition in_INDEX_MAP (symbol : string) : bool :=
  match INDEX_MAP !! symbol with
  | Some _ => true
  | None => false
  end.

Definition get_clean_symbol (symbol : string) : string :=
  default (PyStr.replace ".BO" "" (PyStr.replace ".NS" "" symbol))
          (INDEX_MAP !! symbol).

Definition is_indian_stock (symbol : string) : bool :=
  PyStr.endswith symbol ".NS" || PyStr.endswith symbol ".BO"
  || in_INDEX_MAP symbol.

Inductive RoutingDecision := VENDOR | MOCK.

Definition decision (symbol : string) : RoutingDecision :=
  if is_indian_stock symbol then VENDOR else MOCK.

(** The router of the specification: decision and canonical symbol. *)
Definition route (externalSymbol : string) : RoutingDecision * string :=
  (decision externalSymbol, get_clean_symbol externalSymbol).

(** No character of [s] is a dot. *)
Fixpoint no_dot (s : string) : bool :=
  match s with
  | EmptyString => true
  | String c t => negb (Ascii.eqb c "."%char) && no_dot t
  end.

(** The canonical symbol as the specification words it: the alias-table
    value, else the symbol with a trailing [".NS"] or [".BO"] removed, the
    result not being stripped again. *)
Definition canonical_by_suffix (s : string) : string :=
  match INDEX_MAP !! s with
  | Some alias => alias
  | None =>
      if PyStr.endswith s ".NS" then PyStr.drop_last 3 s
      else if PyStr.endswith s ".BO" then PyStr.drop_last 3 s
      else s
  end.

(* ===================================================================== *)
(** ** Exceptions, the vendor and the runtime environment *)
(* ===================================================================== *)

(** An instance of a subclass of [Exception]: its class name and [str(e)]. *)
Record exn := Exception { exn_class : string; exn_str : string }.

(** What a call does: it returns a value or raises. *)
Inductive outcome (A : Type) :=
| Ok (a : A)
| Raise (e : exn).
Arguments Ok {A} a.
Arguments Raise {A} e.

Definition obind {A B} (o : outcome A) (k : A -> outcome B) : outcome B :=
  match o with
  | Ok a => k a
  | Raise e => Raise e
  end.

Declare Scope outcome_scope.
Delimit Scope outcome_scope with out.
Notation "x <- c1 ;; c2" := (obind c1 (fun x => c2))
  (at level 100, c1 at next level, right associativity) : outcome_scope.

(** A tick object of the vendor: its attributes by name. *)
Abbreviation Tick := (gmap string pyval).

(** The object [TD(...)] returns.  [live_data] is filled by the vendor's
    own thread, so the cache a handler sees depends on how many sleeps have
    elapsed since the request started. *)
Record TD := {
  start_live_data : list string -> outcome (list Z);
  live_data : nat -> gmap Z Tick;
  disconnect : outcome unit
}.

(** The object [requests.get] returns: [status_code] and [json()]. *)
Record Response := {
  status_code : Z;
  json : outcome pyval
}.

(** Everything the handlers observe that the module does not compute. *)
Record Env := {
  TD_USER : option string;          (* os.getenv("TD_USER") *)
  TD_PASS : option string;          (* os.getenv("TD_PASS") *)
  fl : Q -> Q;                      (* rounding of a real result to a float *)
  strftime : string -> Z -> string; (* dt.strftime(fmt) of the day dt *)
  now : Z;                          (* the day of datetime.now() *)
  random_stream : nat -> Q;         (* successive results of random.random() *)
  TD_connect : string -> option string -> Z -> outcome TD;
  requests_get : string -> list (string * pyval) -> Z -> outcome Response
}.

(** The calls and outputs an observer of the process sees, in order. *)
Inductive event :=
| EvConnect (user : string) (password : option string) (live_port : Z)
| EvDisconnect
| EvStartLiveData (symbols : list string)
| EvLiveDataLookup (req_id : Z)
| EvSleep (seconds : Q)
| EvGet (url : string) (params : list (string * pyval)) (timeout : Z)
| EvPrint (parts : list pyval).

(** The calls that reach the vendor. *)
Definition is_vendor_call (ev : event) : bool :=
  match ev with
  | EvConnect _ _ _ | EvDisconnect | EvStartLiveData _ | EvGet _ _ _ => true
  | EvLiveDataLookup _ | EvSleep _ | EvPrint _ => false
  end.

Record State := {
  td_app : option TD;   (* the module global *)
  rng : nat;            (* samples drawn so far *)
  clock : nat;          (* sleeps elapsed *)
  trace : list event
}.

Definition initial_state : State :=
  {| td_app := None; rng := 0%nat; clock := 0%nat; trace := [] |}.

(* ===================================================================== *)
(** ** The monad of handlers *)
(* ===================================================================== *)

Definition M (A : Type) : Type := Env -> State -> outcome A * State.

Definition ret {A} (a : A) : M A := fun _ st => (Ok a, st).

Definition bind {A B} (c : M A) (k : A -> M B) : M B :=
  fun env st =>
    match c env st with
    | (Ok a, st') => k a env st'
    | (Raise e, st') => (Raise e, st')
    end.

Definition raise {A} (e : exn) : M A := fun _ st => (Raise e, st).

(** [try: body  except Exception as e: handler(e)] *)
Definition try_except {A} (body : M A) (handler : exn -> M A) : M A :=
  fun env st =>
    match body env st with
    | (Ok a, st') => (Ok a, st')
    | (Raise e, st') => handler e env st'
    end.

Definition lift {A} (o : outcome A) : M A := fun _ st => (o, st).

Definition ask : M Env := fun env st => (Ok env, st).

Definition get_state : M State := fun _ st => (Ok st, st).

Definition emit (ev : event) : M unit :=
  fun _ st =>
    (Ok tt, {| td_app := td_app st; rng := rng st; clock := clock st;
               trace := trace st ++ [ev] |}).

Definition set_td_app (td : option TD) : M unit :=
  fun _ st =>
    (Ok tt, {| td_app := td; rng := rng st; clock := clock st;
               trace := trace st |}).

Declare Scope py_scope.
Delimit Scope py_scope with py.
Notation "x <- c1 ;; c2" := (bind c1 (fun x => c2))
  (at level 100, c1 at next level, right associativity) : py_scope.
Notation "c1 ;; c2" := (bind c1 (fun _ => c2))
  (at level 100, right associativity) : py_scope.
Local Open Scope py_scope.

Definition print (parts : list pyval) : M unit := emit (EvPrint parts).

(** [time.sleep(seconds)] *)
Definition sleep (seconds : Q) : M unit :=
  fun _ st =>
    (Ok tt, {| td_app := td_app st; rng := rng st; clock := S (clock st);
               trace := trace st ++ [EvSleep seconds] |}).

(** [random.random()] *)
Definition random : M Q :=
  fun env st =>
    (Ok (random_stream env (rng st)),
     {| td_app := td_app st; rng := S (rng st); clock := clock st;
        trace := trace st |}).

(** [random.uniform(a, b)], that is [a + (b - a) * random()], for integer
    bounds. *)
Definition uniform (a b : Z) : M Q :=
  env <- ask ;;
  r <- random ;;
  ret (fl env (inject_Z a + fl env (inject_Z (b - a) * r))).

(** [td.start_live_data(symbols)] *)
Definition call_start_live_data (td : TD) (symbols : list string) : M (list Z) :=
  emit (EvStartLiveData symbols) ;;
  lift (start_live_data td symbols).

(** [req_id in td.live_data] *)
Definition live_data_contains (td : TD) (req_id : Z) : M bool :=
  st <- get_state ;;
  emit (EvLiveDataLookup req_id) ;;
  ret (match live_data td (clock st) !! req_id with
       | Some _ => true
       | None => false
       end).

(** [td.live_data[req_id]]; in [get_quote] it follows a successful
    membership test on the same cache, so the [KeyError] is never seen. *)
Definition live_data_getitem (td : TD) (req_id : Z) : M Tick :=
  st <- get_state ;;
  match live_data td (clock st) !! req_id with
  | Some tick => ret tick
  | None => raise (Exception "KeyError" "req_id")
  end.

(** [requests.get(url, params=params, timeout=timeout)] *)
Definition call_requests_get (url : string) (params : list (string * pyval))
    (timeout : Z) : M Response :=
  env <- ask ;;
  emit (EvGet url params timeout) ;;
  lift (requests_get env url params timeout).

(** [getattr(tick, name, 0)] *)
Definition getattr (tick : Tick) (name : string) : pyval :=
  default (PInt 0) (tick !! name).

(** An optional environment string as a Python value. *)
Definition of_getenv (v : option string) : pyval :=
  match v with
  | Some s => PStr s
  | None => PNone
  end.

(* ===================================================================== *)
(** ** Operations on JSON values *)
(* ===================================================================== *)

(** [v.get(key, dflt)]: only a dict has the method. *)
Definition py_get (v : pyval) (key : string) (dflt : pyval) : outcome pyval :=
  match v with
  | PDict items => Ok (default dflt (assoc key items))
  | _ => Raise (Exception "AttributeError"
                  ("'" ++ type_name v ++ "' object has no attribute 'get'"))
  end.

Fixpoint chars (s : string) : list pyval :=
  match s with
  | EmptyString => []
  | String c t => PStr (String c EmptyString) :: chars t
  end.

(** The items [for row in v] visits. *)
Definition py_iter (v : pyval) : outcome (list pyval) :=
  match v with
  | PList l => Ok l
  | PStr s => Ok (chars s)
  | PDict items => Ok (map (fun kv => PStr (fst kv)) items)
  | _ => Raise (Exception "TypeError"
                  ("'" ++ type_name v ++ "' object is not iterable"))
  end.

(** [len(v)] *)
Definition py_len (v : pyval) : outcome nat :=
  match v with
  | PList l => Ok (length l)
  | PStr s => Ok (String.length s)
  | PDict items => Ok (length items)
  | _ => Raise (Exception "TypeError"
                  ("object of type '" ++ type_name v ++ "' has no len()"))
  end.

(** [v[i]] for a literal index [i >= 0]. *)
Definition py_getitem (v : pyval) (i : nat) : outcome pyval :=
  match v with
  | PList l =>
      match l !! i with
      | Some x => Ok x
      | None => Raise (Exception "IndexError" "list index out of range")
      end
  | PStr s =>
      match String.get i s with
      | Some c => Ok (PStr (String c EmptyString))
      | None => Raise (Exception "IndexError" "string index out of range")
      end
  | PDict _ => Raise (Exception "KeyError" "index")
  | _ => Raise (Exception "TypeError"
                  ("'" ++ type_name v ++ "' object is not subscriptable"))
  end.

(* ===================================================================== *)
(** ** Float helpers: [round(x, 2)] and [int(x)] *)
(* ===================================================================== *)

(** The integer nearest to [q], ties going to the even one. *)
Definition round_half_even (q : Q) : Z :=
  let f := Qfloor q in
  match Qcompare (q - inject_Z f) (1 # 2) with
  | Lt => f
  | Gt => f + 1
  | Eq => if Z.even f then f else f + 1
  end.

(** [round(x, 2)]: the float nearest to [x] rounded to two decimals. *)
Definition round2 (env : Env) (x : Q) : Q :=
  fl env (inject_Z (round_half_even (x * 100)) / 100).

(** [int(x)] on a float: truncation towards zero. *)
Definition int_of_float (x : Q) : Z :=
  if Qle_bool 0 x then Qfloor x else Qceiling x.

(* ===================================================================== *)
(** ** [generate_mock_history] *)
(* ===================================================================== *)

(** One candle of the mock series, built from the day's [price]. *)
Definition mock_candle (env : Env) (dt : Z) (price volume : Q) : pyval :=
  PDict
    [ ("date", PStr (strftime env "%Y-%m-%d" dt));
      ("open", PFloat (round2 env (fl env (price * fl env (99 # 100)))));
      ("high", PFloat (round2 env (fl env (price * fl env (101 # 100)))));
      ("low", PFloat (round2 env (fl env (price * fl env (98 # 100)))));
      ("close", PFloat (round2 env price));
      ("volume", PInt (int_of_float volume)) ].

(** The body of [for i in range(30)], over the remaining values of [i]. *)
Fixpoint mock_loop (range : list nat) (now_ : Z) (price : Q)
    (data : list pyval) : M (list pyval) :=
  match range with
  | [] => ret data
  | i :: range' =>
      env <- ask ;;
      let dt := now_ - (30 - Z.of_nat i) in
      r <- random ;;
      let price :=
        fl env (price *
                fl env (1 + fl env (fl env (r - (1 # 2)) * fl env (3 # 100)))) in
      volume <- uniform 1000 10000 ;;
      mock_loop range' now_ price (data ++ [mock_candle env dt price volume])
  end.

Definition generate_mock_history (base_price : Q) : M pyval :=
  env <- ask ;;
  data <- mock_loop (seq 0 30) (now env) base_price [] ;;
  ret (PList data).

Arguments generate_mock_history : simpl never.

(** The default of the parameter [base_price]. *)
Definition default_base_price : Q := 150.

(* ===================================================================== *)
(** ** [/quote] *)
(* ===================================================================== *)

(** One level of the order book, from the two attributes of the tick. *)
Definition level (tick : Tick) (rate qty : string) : pyval :=
  PDict [ ("price", getattr tick rate); ("qty", getattr tick qty) ].

Definition orderbook_of (tick : Tick) : pyval :=
  PDict
    [ ("bids",
       PList [ level tick "bid1_rate" "bid1_qty";
               level tick "bid2_rate" "bid2_qty";
               level tick "bid3_rate" "bid3_qty";
               level tick "bid4_rate" "bid4_qty";
               level tick "bid5_rate" "bid5_qty" ]);
      ("asks",
       PList [ level tick "ask1_rate" "ask1_qty";
               level tick "ask2_rate" "ask2_qty";
               level tick "ask3_rate" "ask3_qty";
               level tick "ask4_rate" "ask4_qty";
               level tick "ask5_rate" "ask5_qty" ]) ].

(** The response built from a cached tick. *)
Definition quote_of_tick (symbol : string) (tick : Tick) : pyval :=
  let orderbook := orderbook_of tick in
  PDict
    [ ("symbol", PStr symbol);
      ("price", getattr tick "ltp");
      ("change", getattr tick "change");
      ("change_percent", getattr tick "change_perc");
      ("volume", getattr tick "volume");
      ("high", getattr tick "day_high");
      ("low", getattr tick "day_low");
      ("orderbook", orderbook);
      ("currency", PStr "INR");
      ("source", PStr "TrueData") ].

(** The degraded responses [{"symbol": symbol, "price": 0, key: text}]. *)
Definition degraded_quote (symbol key text : string) : pyval :=
  PDict [ ("symbol", PStr symbol); ("price", PInt 0); (key, PStr text) ].

Definition get_quote (symbol : string) : M pyval :=
  if is_indian_stock symbol then
    st <- get_state ;;
    match td_app st with
    | None => ret (degraded_quote symbol "status" "Disconnected")
    | Some td =>
        try_except
          (let clean_sym := get_clean_symbol symbol in
           req_ids <- call_start_live_data td [clean_sym] ;;
           match req_ids with
           | [] => ret (degraded_quote symbol "status" "Invalid Symbol")
           | req_id :: _ =>
               cached <- live_data_contains td req_id ;;
               (if negb cached then sleep (2 # 10) else ret tt) ;;
               cached' <- live_data_contains td req_id ;;
               if cached' then
                 tick <- live_data_getitem td req_id ;;
                 ret (quote_of_tick symbol tick)
               else
                 ret (degraded_quote symbol "status" "Waiting for tick...")
           end)
          (fun e =>
             print [PStr "Quote Error: "; PStr (exn_str e)] ;;
             ret (degraded_quote symbol "error" (exn_str e)))
    end
  else
    price <- uniform 100 3000 ;;
    change <- uniform (-5) 5 ;;
    change_percent <- uniform (-1) 1 ;;
    ret (PDict
           [ ("symbol", PStr symbol);
             ("price", PFloat price);
             ("change", PFloat change);
             ("change_percent", PFloat change_percent);
             ("currency", PStr "USD");
             ("source", PStr "Mock (US)") ]).

(* ===================================================================== *)
(** ** [/history] *)
(* ===================================================================== *)

Definition TD_HISTORY_URL : string := "https://history.truedata.in/gethistory".

(** The branch on [period]: how many days back [start_date] lies, and the
    resolution. *)
Definition period_window (period : string) : Z * string :=
  if String.eqb period "1d" then (5, "15min")
  else if String.eqb period "1y" then (365, "EOD")
  else (30, "EOD").

(** The query parameters of the history request. *)
Definition history_params (env : Env) (clean_sym resolution : string)
    (start_date end_date : Z) : list (string * pyval) :=
  [ ("symbol", PStr clean_sym);
    ("resolution", PStr resolution);
    ("from", PStr (strftime env "%y%m%d" start_date));
    ("to", PStr (strftime env "%y%m%d" end_date));
    ("response", PStr "json");
    ("user", of_getenv (TD_USER env));
    ("pass", of_getenv (TD_PASS env)) ].

(** The body of [for row in records], over the remaining rows. *)
Fixpoint history_rows (rows : list pyval) (chart_data : list pyval)
    : outcome (list pyval) :=
  match rows with
  | [] => Ok chart_data
  | row :: rows' =>
      (n <- py_len row ;;
       if (5 <=? n)%nat then
         date <- py_getitem row 0 ;;
         open <- py_getitem row 1 ;;
         high <- py_getitem row 2 ;;
         low <- py_getitem row 3 ;;
         close <- py_getitem row 4 ;;
         n' <- py_len row ;;
         volume <- (if (5 <? n')%nat then py_getitem row 5
                    else Ok (PInt 0)) ;;
         history_rows rows'
           (chart_data ++
              [PDict [ ("date", date); ("open", open); ("high", high);
                       ("low", low); ("close", close); ("volume", volume) ]])
       else history_rows rows' chart_data)%out
  end.

(** What the handler makes of a response with status 200. *)
Definition parse_history (response : Response) : outcome pyval :=
  (data <- json response ;;
   records <- py_get data "Records" (PList []) ;;
   rows <- py_iter records ;;
   chart_data <- history_rows rows [] ;;
   Ok (PList chart_data))%out.

Definition get_history (symbol period : string) : M pyval :=
  if negb (is_indian_stock symbol) then
    generate_mock_history default_base_price
  else
    let clean_sym := get_clean_symbol symbol in
    env <- ask ;;
    let end_date := now env in
    let '(days, resolution) := period_window period in
    let start_date := end_date - days in
    try_except
      (let params :=
         history_params env clean_sym resolution start_date end_date in
       response <- call_requests_get TD_HISTORY_URL params 5 ;;
       if status_code response =? 200 then
         lift (parse_history response)
       else
         print [PStr "History API Error: "; PInt (status_code response)] ;;
         generate_mock_history default_base_price)
      (fun e =>
         print [PStr "History Exception: "; PStr (exn_str e)] ;;
         generate_mock_history default_base_price).

(* ===================================================================== *)
(** ** [/fundamentals] *)
(* ===================================================================== *)

Definition TD_FUNDAMENTAL_URL : string := "https://api.truedata.in/fundamental".

(** The default record, [empty_data]. *)
Definition empty_data (symbol : string) : pyval :=
  PDict
    [ ("market_cap", PInt 0);
      ("pe_ratio", PInt 0);
      ("peg_ratio", PInt 0);
      ("book_value", PInt 0);
      ("dividend_yield", PInt 0);
      ("eps", PInt 0);
      ("profit_margin", PInt 0);
      ("roe", PInt 0);
      ("debt_to_equity", PInt 0);
      ("shareholding",
       PDict [ ("promoters", PInt 0); ("institutions", PInt 0);
               ("public", PInt 0) ]);
      ("forecast",
       PDict [ ("recommendation", PStr "WAITING");
               ("targetMean", PInt 0);
               ("targetLow", PInt 0);
               ("targetHigh", PInt 0) ]);
      ("currency", PStr (if is_indian_stock symbol then "INR" else "USD")) ].

(** The record returned on status 200, field by field from [real_data]. *)
Definition overlay (real_data : pyval) : outcome pyval :=
  (market_cap <- py_get real_data "market_cap" (PInt 0) ;;
  pe_ratio <- py_get real_data "pe" (PInt 0) ;;
  peg_ratio <- py_get real_data "peg" (PInt 0) ;;
  book_value <- py_get real_data "book_value" (PInt 0) ;;
  dividend_yield <- py_get real_data "dividend_yield" (PInt 0) ;;
  eps <- py_get real_data "eps" (PInt 0) ;;
  profit_margin <- py_get real_data "profit_margin" (PInt 0) ;;
  roe <- py_get real_data "roe" (PInt 0) ;;
  debt_to_equity <- py_get real_data "debt_to_equity" (PInt 0) ;;
  shareholding <- py_get real_data "shareholding" (PDict []) ;;
  recommendation <- py_get real_data "recommendation" (PStr "N/A") ;;
  targetMean <- py_get real_data "target_price" (PInt 0) ;;
  targetLow <- py_get real_data "target_low" (PInt 0) ;;
  targetHigh <- py_get real_data "target_high" (PInt 0) ;;
  Ok (PDict
         [ ("market_cap", market_cap);
           ("pe_ratio", pe_ratio);
           ("peg_ratio", peg_ratio);
           ("book_value", book_value);
           ("dividend_yield", dividend_yield);
           ("eps", eps);
           ("profit_margin", profit_margin);
           ("roe", roe);
           ("debt_to_equity", debt_to_equity);
           ("shareholding", shareholding);
           ("forecast",
            PDict [ ("recommendation", recommendation);
                    ("targetMean", targetMean);
                    ("targetLow", targetLow);
                    ("targetHigh", targetHigh) ]);
           ("currency", PStr "INR") ]))%out.

Definition get_fundamentals (symbol : string) : M pyval :=
  let clean_sym := get_clean_symbol symbol in
  let empty_data := empty_data symbol in
  if is_indian_stock symbol then
    try_except
      (env <- ask ;;
       let url := TD_FUNDAMENTAL_URL ++ "/company_info" in
       let params :=
         [ ("symbol", PStr clean_sym);
           ("user", of_getenv (TD_USER env));
           ("pass", of_getenv (TD_PASS env)) ] in
       response <- call_requests_get url params 3 ;;
       if status_code response =? 200 then
         lift (real_data <- json response ;; overlay real_data)%out
       else
         print [PStr "API Failed "; PInt (status_code response);
                PStr ": Returning Empty Data"] ;;
         ret empty_data)
      (fun e =>
         print [PStr "Connection Error: "; PStr (exn_str e)] ;;
         ret empty_data)
  else ret empty_data.

(* ===================================================================== *)
(** ** [/news] *)
(* ===================================================================== *)

Definition news_item (title date sentiment link publisher : string) : pyval :=
  PDict [ ("title", PStr title);
          ("date", PStr date);
          ("sentiment", PStr sentiment);
          ("link", PStr link);
          ("publisher", PStr publisher) ].

Definition get_news (symbol : string) : M pyval :=
  let clean_sym := get_clean_symbol symbol in
  ret (PList
         [ news_item ("Strong Q3 Performance reported by " ++ clean_sym)
             "2024-10-15" "Positive"
             "https://www.moneycontrol.com" "TrueData News";
           news_item "Analyst Call scheduled for next Tuesday"
             "2024-10-10" "Neutral"
             "https://www.bloomberg.com" "Bloomberg";
           news_item ("New product line launch expected for " ++ clean_sym)
             "2024-10-05" "Positive"
             "https://economictimes.indiatimes.com" "Economic Times" ]).

(* ===================================================================== *)
(** ** Start-up and shut-down *)
(* ===================================================================== *)

Definition TD_PORT : Z := 8086.

(** Truth value of the result of [os.getenv]: set and not empty. *)
Definition getenv_truthy (v : option string) : bool :=
  match v with
  | Some EmptyString | None => false
  | Some _ => true
  end.

(** [TD(user, password, live_port=port)] *)
Definition call_TD (user : string) (password : option string) (port : Z)
    : M TD :=
  env <- ask ;;
  emit (EvConnect user password port) ;;
  lift (TD_connect env user password port).

Definition startup_event : M unit :=
  env <- ask ;;
  if getenv_truthy (TD_USER env) then
    let user := default "" (TD_USER env) in
    try_except
      (print [PStr "Connecting to TrueData ("; PStr user;
              PStr ") on Port "; PInt TD_PORT; PStr "..."] ;;
       td <- call_TD user (TD_PASS env) TD_PORT ;;
       set_td_app (Some td) ;;
       print [PStr "TrueData Connected Successfully!"])
      (fun e =>
         print [PStr "TrueData Connection Failed: "; PStr (exn_str e)])
  else
    print [PStr "TrueData credentials missing in .env file."].

Definition shutdown_event : M unit :=
  st <- get_state ;;
  match td_app st with
  | Some td =>
      print [PStr "Disconnecting TrueData to release session..."] ;;
      try_except
        (emit EvDisconnect ;;
         lift (disconnect td) ;;
         print [PStr "TrueData Disconnected."])
        (fun e => print [PStr "Disconnect error: "; PStr (exn_str e)])
  | None => ret tt
  end.

(** The process from its start to the answer of one request. *)
Definition serve {A} (handler : M A) : M A :=
  startup_event ;; handler.

(** The process from its start through one request to its shut-down. *)
Definition lifecycle {A} (handler : M A) : M A :=
  startup_event ;;
  answer <- handler ;;
  shutdown_event ;;
  ret answer.

(** The vendor calls of a trace. *)
Definition vendor_calls (tr : list event) : list event :=
  filter (fun ev => is_vendor_call ev = true) tr.

(* ===================================================================== *)
(** ** Notions the statements use *)
(* ===================================================================== *)

(** The tick [get_quote] finds for [req_id]: the one cached on arrival,
    else the one cached after the single sleep. *)
Definition tick_seen (td : TD) (st : State) (req_id : Z) : option Tick :=
  match live_data td (clock st) !! req_id with
  | Some tick => Some tick
  | None => live_data td (S (clock st)) !! req_id
  end.

(** The tick a [/quote] request for [symbol] is answered from, if any: the
    symbol is routed to the vendor, the session exists, the subscription
    yields a request identifier and its tick is seen. *)
Definition quote_tick (symbol : string) (st : State) : option Tick :=
  if is_indian_stock symbol then
    match td_app st with
    | Some td =>
        match start_live_data td [get_clean_symbol symbol] with
        | Ok (req_id :: _) => tick_seen td st req_id
        | _ => None
        end
    | None => None
    end
  else None.

(** A level of the order book: a price and a quantity. *)
Definition is_level (v : pyval) : Prop :=
  exists price qty, v = PDict [("price", price); ("qty", qty)].

(** The response has an order book of exactly five bids and five asks. *)
Definition five_levels (resp : pyval) : Prop :=
  exists bids asks,
    field resp "orderbook"
    = Some (PDict [("bids", PList bids); ("asks", PList asks)])
    /\ length bids = 5%nat /\ length asks = 5%nat
    /\ Forall is_level bids /\ Forall is_level asks.

(** The level the handler must report for the attributes [rate] and [qty]
    of a tick: the attribute when the tick has it, else zero. *)
Definition level_or_zero (tick : Tick) (rate qty : string) : pyval :=
  PDict [ ("price", match tick !! rate with Some v => v | None => PInt 0 end);
          ("qty", match tick !! qty with Some v => v | None => PInt 0 end) ].

(** The candle a payload row stands for: its first five fields and the
    sixth as volume, 0 when there is none; no candle for a shorter row. *)
Definition candle_of_row (row : list pyval) : option pyval :=
  match row with
  | date :: open :: high :: low :: close :: rest =>
      Some (PDict [ ("date", date); ("open", open); ("high", high);
                    ("low", low); ("close", close);
                    ("volume", match rest with
                               | volume :: _ => volume
                               | [] => PInt 0
                               end) ])
  | _ => None
  end.

(** The outcome of the one request [/history] sends for [symbol] and
    [period]. *)
Definition history_request (env : Env) (symbol period : string)
    : outcome Response :=
  requests_get env TD_HISTORY_URL
    (history_params env (get_clean_symbol symbol)
       (snd (period_window period))
       (now env - fst (period_window period)) (now env))
    5.

(** The vendor call of [/history] fails: the request raises (no
    connection, timeout), the status is not 200, or the payload does not
    parse. *)
Definition history_fails (request : outcome Response) : Prop :=
  match request with
  | Raise _ => True
  | Ok response =>
      status_code response <> 200
      \/ exists e, parse_history response = Raise e
  end.

(** The query parameters of the fundamentals request. *)
Definition fundamentals_params (env : Env) (symbol : string)
    : list (string * pyval) :=
  [ ("symbol", PStr (get_clean_symbol symbol));
    ("user", of_getenv (TD_USER env));
    ("pass", of_getenv (TD_PASS env)) ].

(** The outcome of the one request [/fundamentals] sends for [symbol]. *)
Definition fundamentals_request (env : Env) (symbol : string)
    : outcome Response :=
  requests_get env (TD_FUNDAMENTAL_URL ++ "/company_info")
    (fundamentals_params env symbol) 3.

(** The vendor call of [/fundamentals] fails: the request raises, the
    status is not 200, or reading the body raises. *)
Definition fundamentals_fails (request : outcome Response) : Prop :=
  match request with
  | Raise _ => True
  | Ok response =>
      status_code response <> 200
      \/ exists e, (real_data <- json response ;; overlay real_data)%out
                   = Raise e
  end.

(** The candle of the mock series for the day [dt]: the six fields, with
    low <= open <= close <= high, open, high and low within 0.011 of
    0.99, 1.01 and 0.98 times the close, and the volume in the band of the
    uniform sample. *)
Definition mock_candle_ok (env : Env) (dt : Z) (candle : pyval) : Prop :=
  exists open high low close volume,
    candle = PDict [ ("date", PStr (strftime env "%Y-%m-%d" dt));
                     ("open", PFloat open);
                     ("high", PFloat high);
                     ("low", PFloat low);
                     ("close", PFloat close);
                     ("volume", PInt volume) ]
    /\ (low <= open /\ open <= close /\ close <= high)%Q
    /\ (Qabs (open - (99 # 100) * close) <= 11 # 1000)%Q
    /\ (Qabs (high - (101 # 100) * close) <= 11 # 1000)%Q
    /\ (Qabs (low - (98 # 100) * close) <= 11 # 1000)%Q
    /\ 1000 <= volume <= 10000.

(** The days of the mock series: [now - timedelta(days=30-i)] for [i]
    from 0 to 29. *)
Definition mock_days (env : Env) : list Z :=
  map (fun i : nat => now env - (30 - Z.of_nat i)) (seq 0 30).

(** [q] to the power [n]. *)
Fixpoint qpow (q : Q) (n : nat) : Q :=
  match n with
  | O => 1
  | S n' => q * qpow q n'
  end.

(** [/quote] has to wait for the tick: the symbol is routed to the vendor,
    the session exists, the subscription yields a request identifier and
    its tick is not cached on arrival. *)
Definition quote_waits (symbol : string) (st : State) : bool :=
  if is_indian_stock symbol then
    match td_app st with
    | Some td =>
        match start_live_data td [get_clean_symbol symbol] with
        | Ok (req_id :: _) =>
            match live_data td (clock st) !! req_id with
            | Some _ => false
            | None => true
            end
        | _ => false
        end
    | None => false
    end
  else false.

(** The vendor calls [/quote] makes for [symbol]. *)
Definition quote_calls (symbol : string) (st : State) : list event :=
  if is_indian_stock symbol then
    match td_app st with
    | Some _ => [EvStartLiveData [get_clean_symbol symbol]]
    | None => []
    end
  else [].


(** The four prices of a candle lie between [lo] and [hi]. *)
Definition candle_within (lo hi : Q) (candle : pyval) : Prop :=
  exists open high low close,
    field candle "open" = Some (PFloat open)
    /\ field candle "high" = Some (PFloat high)
    /\ field candle "low" = Some (PFloat low)
    /\ field candle "close" = Some (PFloat close)
    /\ (lo <= low /\ low <= open /\ open <= close /\ close <= high
        /\ high <= hi)%Q.

(** [st] after the events [evs] and [sleeps] sleeps. *)
Definition after (st : State) (evs : list event) (sleeps : nat) : State :=
  {| td_app := td_app st; rng := rng st; clock := clock st + sleeps;
     trace := trace st ++ evs |}.

(* ===================================================================== *)
(** ** Concrete environments *)
(* ===================================================================== *)

Module Example.

(** The decimal digits of [n], the least [width] of them. *)
Fixpoint digits (width : nat) (n : Z) : string :=
  match width with
  | O => EmptyString
  | S w =>
      digits w (n / 10)
      ++ String (Ascii.ascii_of_N (48 + Z.to_N (n mod 10))) EmptyString
  end.

(** Year, month and day of the proleptic Gregorian day number [ordinal]
    (day 1 is 0001-01-01). *)
Definition civil (ordinal : Z) : Z * Z * Z :=
  let z := ordinal + 305 in
  let era := z / 146097 in
  let doe := z mod 146097 in
  let yoe := (doe - doe / 1460 + doe / 36524 - doe / 146096) / 365 in
  let doy := doe - (365 * yoe + yoe / 4 - yoe / 100) in
  let mp := (5 * doy + 2) / 153 in
  let d := doy - (153 * mp + 2) / 5 + 1 in
  let m := if mp <? 10 then mp + 3 else mp - 9 in
  let y := yoe + era * 400 + (if m <=? 2 then 1 else 0) in
  (y, m, d).

(** The two formats the module uses. *)
Definition render (fmt : string) (dt : Z) : string :=
  let '(y, m, d) := civil dt in
  if String.eqb fmt "%Y-%m-%d"
  then digits 4 y ++ "-" ++ digits 2 m ++ "-" ++ digits 2 d
  else if String.eqb fmt "%y%m%d"
  then digits 2 y ++ digits 2 m ++ digits 2 d
  else fmt.

(** A tick that carries the last price and the first level of each side. *)
Definition tick : Tick :=
  list_to_map
    [ ("ltp", PFloat (24505 # 10));
      ("volume", PInt 120000);
      ("bid1_rate", PFloat (2450 # 1)); ("bid1_qty", PInt 40);
      ("ask1_rate", PFloat (2451 # 1)); ("ask1_qty", PInt 25) ].

(** The tick of request 7 is cached from the start. *)
Definition td_cached : TD :=
  {| start_live_data := fun _ => Ok [7];
     live_data := fun _ => {[ 7 := tick ]};
     disconnect := Ok tt |}.

(** The tick of request 7 arrives during the first sleep. *)
Definition td_late : TD :=
  {| start_live_data := fun _ => Ok [7];
     live_data := fun t => match t with O => ∅ | S _ => {[ 7 := tick ]} end;
     disconnect := Ok tt |}.

(** No tick ever arrives. *)
Definition td_silent : TD :=
  {| start_live_data := fun _ => Ok [7];
     live_data := fun _ => ∅;
     disconnect := Ok tt |}.

(** The subscription yields no request identifier. *)
Definition td_unknown : TD :=
  {| start_live_data := fun _ => Ok [];
     live_data := fun _ => ∅;
     disconnect := Ok tt |}.

(** The subscription raises. *)
Definition td_broken : TD :=
  {| start_live_data :=
       fun _ => Raise (Exception "ConnectionError" "socket closed");
     live_data := fun _ => ∅;
     disconnect := Ok tt |}.

Definition samples (n : nat) : Q :=
  inject_Z (Z.of_nat (n * 37 mod 100)) / 100.

(** An environment with exact arithmetic, on 2026-11-03, whose vendor
    answers every request with [response]. *)
Definition env (user password : option string) (td : outcome TD)
    (response : outcome Response) : Env :=
  {| TD_USER := user;
     TD_PASS := password;
     fl := fun q => Qred q;
     strftime := render;
     now := 739923;
     random_stream := samples;
     TD_connect := fun _ _ _ => td;
     requests_get := fun _ _ _ => response |}.

Definition timeout : outcome Response :=
  Raise (Exception "ReadTimeout" "Read timed out.").

Definition unauthorized : outcome Response :=
  Ok {| status_code := 401;
        json := Ok (PDict [("error", PStr "unauthorized")]) |}.

Definition ok_json (body : pyval) : outcome Response :=
  Ok {| status_code := 200; json := Ok body |}.

(** A history payload: a full row, a row without volume, a short row. *)
Definition records : pyval :=
  PDict
    [ ("Records",
       PList
         [ PList [ PStr "2026-10-30"; PInt 100; PInt 104; PInt 99;
                   PInt 103; PInt 5000 ];
           PList [ PStr "2026-10-31"; PInt 103; PInt 105; PInt 101;
                   PInt 102 ];
           PList [ PStr "2026-11-02"; PInt 102 ] ]) ].

(** A history payload with a well-formed row and a [null] row. *)
Definition spoiled_records : pyval :=
  PDict
    [ ("Records",
       PList [ PList [ PStr "2026-10-30"; PInt 100; PInt 104; PInt 99;
                       PInt 103 ];
               PNone ]) ].

(** A fundamentals payload that has two of the fields. *)
Definition company_info : pyval :=
  PDict [ ("market_cap", PInt 1400000); ("pe", PFloat (43 # 2)) ].

(** The environment of a process started without credentials. *)
Definition no_credentials (response : outcome Response) : Env :=
  env None None (Ok td_cached) response.

(** The environment of a process started with credentials. *)
Definition connected (td : TD) (response : outcome Response) : Env :=
  env (Some "user") (Some "secret") (Ok td) response.

(** The state of a process connected to [td]. *)
Definition state_with (td : TD) : State :=
  {| td_app := Some td; rng := 0%nat; clock := 0%nat; trace := [] |}.

End Example.

(* ===================================================================== *)
(** * Properties *)
(* ===================================================================== *)

(** ** Strings *)

Section Strings.

Local Open Scope nat_scope.

Lemma append_cons (c : Ascii.ascii) (p s : string) :
  String c p ++ s = String c (p ++ s).
Proof. reflexivity. Qed.

Lemma append_empty_r (s : string) : s ++ "" = s.
Proof.
  induction s as [|c s IH]; [reflexivity|].
  rewrite append_cons. now rewrite IH.
Qed.

Lemma substring_all (s : string) :
  substring 0 (String.length s) s = s.
Proof.
  induction s as [|c s IH]; simpl; [reflexivity | now rewrite IH].
Qed.

Lemma substring_skip_prefix (p s : string) (n : nat) :
  substring (String.length p) n (p ++ s) = substring 0 n s.
Proof.
  induction p as [|c p IH]; [reflexivity|].
  rewrite append_cons. simpl. exact IH.
Qed.

Lemma length_append (p s : string) :
  String.length (p ++ s) = String.length p + String.length s.
Proof.
  induction p as [|c p IH]; [reflexivity|].
  rewrite append_cons. simpl. now rewrite IH.
Qed.

Lemma substring_split (n : nat) (s : string) :
  n <= String.length s ->
  s = substring 0 n s ++ substring n (String.length s - n) s.
Proof.
  revert s. induction n as [|n IH]; intros s Hn.
  - rewrite Nat.sub_0_r, substring_all.
    destruct s; reflexivity.
  - destruct s as [|c s]; simpl in *; [lia|].
    rewrite append_cons. f_equal. apply IH. lia.
Qed.

(** [endswith] holds exactly of the strings that are some prefix
    followed by the suffix. *)
Lemma endswith_spec (s suffix : string) :
  PyStr.endswith s suffix = true <-> exists p, s = p ++ suffix.
Proof.
  unfold PyStr.endswith. rewrite andb_true_iff, Nat.leb_le, String.eqb_eq.
  split.
  - intros [Hlen Hsub].
    exists (substring 0 (String.length s - String.length suffix) s).
    pose proof (substring_split (String.length s - String.length suffix) s
                  ltac:(lia)) as Hs.
    replace (String.length s - (String.length s - String.length suffix))
      with (String.length suffix) in Hs by lia.
    now rewrite Hsub in Hs.
  - intros [p ->]. rewrite length_append. split; [lia|].
    replace (String.length p + String.length suffix - String.length suffix)
      with (String.length p) by lia.
    rewrite substring_skip_prefix. apply substring_all.
Qed.

Lemma drop_last_append (p suffix : string) :
  PyStr.drop_last (String.length suffix) (p ++ suffix) = p.
Proof.
  unfold PyStr.drop_last. rewrite length_append.
  replace (String.length p + String.length suffix - String.length suffix)
    with (String.length p) by lia.
  induction p as [|c p IH].
  - destruct suffix; reflexivity.
  - rewrite append_cons. simpl. now rewrite IH.
Qed.

End Strings.

(** ** Router *)

Lemma in_INDEX_MAP_spec (s : string) :
  in_INDEX_MAP s = true <-> is_Some (INDEX_MAP !! s).
Proof.
  unfold in_INDEX_MAP. destruct (INDEX_MAP !! s) as [a|].
  - split; [eauto | reflexivity].
  - split; [discriminate | intros [a Ha]; discriminate].
Qed.

(** The decision is [VENDOR] exactly for the symbols that end with [".NS"]
    or [".BO"] or are keys of [INDEX_MAP], and [MOCK] for the others. *)
Lemma decision_VENDOR_iff (s : string) :
  decision s = VENDOR <->
  (exists p, s = p ++ ".NS") \/ (exists p, s = p ++ ".BO")
  \/ is_Some (INDEX_MAP !! s).
Proof.
  unfold decision, is_indian_stock.
  rewrite <- !endswith_spec, <- in_INDEX_MAP_spec.
  destruct (PyStr.endswith s ".NS"), (PyStr.endswith s ".BO"),
    (in_INDEX_MAP s); simpl; intuition congruence.
Qed.

Lemma decision_MOCK_iff (s : string) :
  decision s = MOCK <-> decision s <> VENDOR.
Proof.
  unfold decision. destruct (is_indian_stock s); split; congruence.
Qed.

(** A key of the alias table is mapped to its alias. *)
Lemma get_clean_symbol_alias (s alias : string) :
  INDEX_MAP !! s = Some alias -> get_clean_symbol s = alias.
Proof. unfold get_clean_symbol. now intros ->. Qed.

(** The empty symbol is routed to the mock with itself as canonical form. *)
Lemma route_empty : route "" = (MOCK, "").
Proof. reflexivity. Qed.

(** The examples of the specification. *)
Lemma route_examples :
  route "RELIANCE.NS" = (VENDOR, "RELIANCE")
  /\ route "AAPL" = (MOCK, "AAPL")
  /\ route "^NSEI" = (VENDOR, "NIFTY 50").
Proof. repeat split; vm_compute; reflexivity. Qed.

(** C1 (defect).  [get_clean_symbol] removes [".NS"] and [".BO"] wherever
    they occur, not only at the end: the symbol ["ABC.NSE"], which ends
    with no configured suffix and is no alias, is routed to the mock and
    yet loses its inner [".NS"], where stripping the trailing characters
    only leaves it unchanged; and on ["X.BO.NS"] the removal of [".NS"]
    is followed by the removal of the [".BO"] it uncovers. *)
Theorem get_clean_symbol_removes_inner_occurrences :
  decision "ABC.NSE" = MOCK
  /\ INDEX_MAP !! "ABC.NSE" = None
  /\ get_clean_symbol "ABC.NSE" = "ABCE"
  /\ canonical_by_suffix "ABC.NSE" = "ABC.NSE"
  /\ get_clean_symbol "X.BO.NS" = "X"
  /\ canonical_by_suffix "X.BO.NS" = "X.BO".
Proof. repeat split; vm_compute; reflexivity. Qed.

Lemma INDEX_MAP_keys (s alias : string) :
  INDEX_MAP !! s = Some alias ->
  s = "^NSEI" \/ s = "^BSESN" \/ s = "NIFTY_50" \/ s = "NIFTY_BANK".
Proof.
  unfold INDEX_MAP. intros H.
  apply elem_of_list_to_map_2 in H.
  repeat (apply elem_of_cons in H as [H|H]; [inversion H; tauto|]).
  now apply elem_of_nil in H.
Qed.

Lemma INDEX_MAP_no_suffix (p suffix : string) :
  suffix = ".NS" \/ suffix = ".BO" -> INDEX_MAP !! (p ++ suffix) = None.
Proof.
  intros Hsuf.
  destruct (INDEX_MAP !! (p ++ suffix)) as [alias|] eqn:E; [|reflexivity].
  assert (Hends : PyStr.endswith (p ++ suffix) suffix = true)
    by (apply endswith_spec; eauto).
  apply INDEX_MAP_keys in E.
  destruct Hsuf as [-> | ->];
    destruct E as [E | [E | [E | E]]]; rewrite E in Hends;
    vm_compute in Hends; discriminate.
Qed.

Lemma replace_from_no_dot (old p rest o : string) :
  old = String "."%char o ->
  no_dot p = true ->
  PyStr.replace_from 0 old "" (p ++ rest) = p ++ PyStr.replace_from 0 old "" rest.
Proof.
  intros -> Hp. induction p as [|a p IH]; [reflexivity|].
  simpl in Hp. apply andb_true_iff in Hp as [Ha Hp].
  rewrite append_cons.
  cbn [PyStr.replace_from String.prefix].
  destruct (Ascii.ascii_dec "."%char a) as [<- | Hne]; [discriminate Ha|].
  rewrite append_cons. now rewrite IH.
Qed.

(** On a symbol made of a dot-free stem and one configured suffix the code
    returns the stem, as stripping the trailing characters does. *)
Lemma get_clean_symbol_plain (p suffix : string) :
  suffix = ".NS" \/ suffix = ".BO" ->
  no_dot p = true ->
  get_clean_symbol (p ++ suffix) = p
  /\ canonical_by_suffix (p ++ suffix) = p.
Proof.
  intros Hsuf Hp. unfold get_clean_symbol, canonical_by_suffix.
  rewrite (INDEX_MAP_no_suffix p suffix Hsuf). simpl.
  assert (Hnil : forall old o, old = String "."%char o ->
            PyStr.replace_from 0 old "" p = p).
  { intros old o Ho.
    pose proof (replace_from_no_dot old p "" o Ho Hp) as H.
    rewrite !append_empty_r in H.
    exact H. }
  split.
  - unfold PyStr.replace.
    destruct Hsuf as [-> | ->].
    + rewrite (replace_from_no_dot ".NS" p ".NS" "NS" eq_refl Hp).
      change (PyStr.replace_from 0 ".NS" "" ".NS") with "".
      rewrite append_empty_r. now apply (Hnil ".BO" "BO").
    + rewrite (replace_from_no_dot ".NS" p ".BO" "NS" eq_refl Hp).
      change (PyStr.replace_from 0 ".NS" "" ".BO") with ".BO".
      rewrite (replace_from_no_dot ".BO" p ".BO" "BO" eq_refl Hp).
      change (PyStr.replace_from 0 ".BO" "" ".BO") with "".
      now rewrite append_empty_r.
  - destruct Hsuf as [-> | ->].
    + assert (E : PyStr.endswith (p ++ ".NS") ".NS" = true)
        by (apply endswith_spec; eauto).
      rewrite E. apply (drop_last_append p ".NS").
    + assert (E : PyStr.endswith (p ++ ".BO") ".BO" = true)
        by (apply endswith_spec; eauto).
      rewrite E.
      destruct (PyStr.endswith (p ++ ".BO") ".NS");
        apply (drop_last_append p ".BO").
Qed.

(** ** The monad *)

Lemma after_nil (st : State) : after st [] 0 = st.
Proof.
  destruct st as [td r c tr]. unfold after; simpl.
  now rewrite Nat.add_0_r, app_nil_r.
Qed.

Ltac run :=
  unfold call_start_live_data, live_data_contains, live_data_getitem,
    call_requests_get, call_TD, print, sleep, emit, lift, ask, get_state,
    set_td_app, try_except, raise, bind, ret;
  simpl.

(** ** [/quote] *)

(** What [get_quote] answers and does for a symbol routed to the vendor,
    by the state of the session. *)
Lemma get_quote_vendor (symbol : string) (env : Env) (st : State) :
  is_indian_stock symbol = true ->
  let start := EvStartLiveData [get_clean_symbol symbol] in
  get_quote symbol env st =
  match td_app st with
  | None => (Ok (degraded_quote symbol "status" "Disconnected"), st)
  | Some td =>
      match start_live_data td [get_clean_symbol symbol] with
      | Raise e =>
          (Ok (degraded_quote symbol "error" (exn_str e)),
           after st [start; EvPrint [PStr "Quote Error: "; PStr (exn_str e)]] 0)
      | Ok [] =>
          (Ok (degraded_quote symbol "status" "Invalid Symbol"),
           after st [start] 0)
      | Ok (req_id :: _) =>
          match live_data td (clock st) !! req_id with
          | Some tick =>
              (Ok (quote_of_tick symbol tick),
               after st [start; EvLiveDataLookup req_id;
                         EvLiveDataLookup req_id] 0)
          | None =>
              let evs := [start; EvLiveDataLookup req_id; EvSleep (2 # 10);
                          EvLiveDataLookup req_id] in
              match live_data td (S (clock st)) !! req_id with
              | Some tick => (Ok (quote_of_tick symbol tick), after st evs 1)
              | None =>
                  (Ok (degraded_quote symbol "status" "Waiting for tick..."),
                   after st evs 1)
              end
          end
      end
  end.
Proof.
  intros Hv start. unfold get_quote. rewrite Hv.
  destruct st as [td r c tr]. unfold after. run.
  destruct td as [td|]; [|reflexivity].
  destruct (start_live_data td [get_clean_symbol symbol]) as [[|req_id rest]|e];
    simpl.
  - now rewrite Nat.add_0_r.
  - destruct (live_data td c !! req_id) as [tick|] eqn:E0; simpl.
    + rewrite E0. simpl. rewrite E0. rewrite Nat.add_0_r.
      now rewrite <- !app_assoc.
    + replace (c + 1)%nat with (S c) by lia.
      destruct (live_data td (S c) !! req_id) as [tick|] eqn:E1; simpl.
      * rewrite E1. now rewrite <- !app_assoc.
      * now rewrite <- !app_assoc.
  - rewrite Nat.add_0_r. now rewrite <- !app_assoc.
Qed.

(** A symbol routed to the mock gets a sampled quote and nothing is
    called. *)
Lemma get_quote_mock (symbol : string) (env : Env) (st : State) :
  is_indian_stock symbol = false ->
  exists price change change_percent,
    get_quote symbol env st =
    (Ok (PDict [ ("symbol", PStr symbol);
                 ("price", PFloat price);
                 ("change", PFloat change);
                 ("change_percent", PFloat change_percent);
                 ("currency", PStr "USD");
                 ("source", PStr "Mock (US)") ]),
     {| td_app := td_app st; rng := S (S (S (rng st))); clock := clock st;
        trace := trace st |}).
Proof.
  intros Hm. unfold get_quote. rewrite Hm.
  unfold uniform, random. run. eauto.
Qed.

Lemma level_level_or_zero (tick : Tick) (rate qty : string) :
  level tick rate qty = level_or_zero tick rate qty.
Proof.
  unfold level, level_or_zero, getattr.
  destruct (tick !! rate), (tick !! qty); reflexivity.
Qed.

Lemma is_level_level (tick : Tick) (rate qty : string) :
  is_level (level tick rate qty).
Proof. unfold is_level, level. eauto. Qed.

(** What [get_quote] answers by the tick it finds. *)
Lemma get_quote_answer (symbol : string) (env : Env) (st : State) :
  exists resp,
    fst (get_quote symbol env st) = Ok resp
    /\ match quote_tick symbol st with
       | Some tick => resp = quote_of_tick symbol tick
       | None => field resp "orderbook" = None
       end.
Proof.
  unfold quote_tick.
  destruct (is_indian_stock symbol) eqn:Hr.
  - rewrite (get_quote_vendor symbol env st Hr). cbv zeta.
    destruct (td_app st) as [td|]; [|eauto].
    destruct (start_live_data td [get_clean_symbol symbol])
      as [[|req_id rest]|e]; [eauto| |eauto].
    unfold tick_seen.
    destruct (live_data td (clock st) !! req_id) as [tick|]; [eauto|].
    destruct (live_data td (S (clock st)) !! req_id) as [tick|]; eauto.
  - destruct (get_quote_mock symbol env st Hr) as (p & c & cp & ->). eauto.
Qed.

(** C2 (amended).  A [/quote] response built from a tick carries an order
    book of exactly five bid and five ask levels, each a price and a
    quantity, a level the tick lacks being reported as price 0 and
    quantity 0; every other response (the mock quote and the degraded
    answers) carries no order book. *)
Theorem quote_orderbook_five_levels_from_tick
    (symbol : string) (env : Env) (st : State) :
  exists resp,
    fst (get_quote symbol env st) = Ok resp
    /\ match quote_tick symbol st with
       | Some tick =>
           five_levels resp
           /\ field resp "orderbook" =
              Some (PDict
                [ ("bids",
                   PList [ level_or_zero tick "bid1_rate" "bid1_qty";
                           level_or_zero tick "bid2_rate" "bid2_qty";
                           level_or_zero tick "bid3_rate" "bid3_qty";
                           level_or_zero tick "bid4_rate" "bid4_qty";
                           level_or_zero tick "bid5_rate" "bid5_qty" ]);
                  ("asks",
                   PList [ level_or_zero tick "ask1_rate" "ask1_qty";
                           level_or_zero tick "ask2_rate" "ask2_qty";
                           level_or_zero tick "ask3_rate" "ask3_qty";
                           level_or_zero tick "ask4_rate" "ask4_qty";
                           level_or_zero tick "ask5_rate" "ask5_qty" ]) ])
       | None => field resp "orderbook" = None
       end.
Proof.
  destruct (get_quote_answer symbol env st) as (resp & Hresp & Hshape).
  exists resp. split; [exact Hresp|].
  destruct (quote_tick symbol st) as [tick|]; [|exact Hshape].
  subst resp. split.
  - unfold five_levels. do 2 eexists.
    split; [reflexivity|].
    repeat split; repeat constructor; apply is_level_level.
  - simpl. unfold orderbook_of. now rewrite !level_level_or_zero.
Qed.

(** C2 (as stated) fails: the quote of a symbol routed to the mock, and
    the answer to a vendor symbol while the session is missing, have no
    order book. *)
Lemma quote_without_orderbook :
  (exists resp,
     fst (get_quote "AAPL" (Example.connected Example.td_cached Example.timeout)
            (Example.state_with Example.td_cached)) = Ok resp
     /\ ~ five_levels resp)
  /\ (exists resp,
        fst (get_quote "RELIANCE.NS"
               (Example.no_credentials Example.timeout) initial_state)
        = Ok resp
        /\ ~ five_levels resp).
Proof.
  split.
  - destruct (get_quote_mock "AAPL"
                (Example.connected Example.td_cached Example.timeout)
                (Example.state_with Example.td_cached) eq_refl)
      as (p & c & cp & E).
    rewrite E. eexists. split; [reflexivity|].
    intros (bids & asks & Hob & _). discriminate Hob.
  - eexists. split; [reflexivity|].
    intros (bids & asks & Hob & _). discriminate Hob.
Qed.

(** C3.  For a symbol routed to the vendor [/quote] always answers: with
    price 0 and status "Disconnected", nothing being called, when there
    is no session; with price 0 and status "Invalid Symbol" when the
    subscription yields no request identifier; with price 0 and an
    [error] field holding the description when the subscription raises;
    and when the tick is not cached it sleeps 0.2 s once, looks the cache
    up once more, and answers price 0 and status "Waiting for tick..." if
    the tick is still missing. *)
Theorem quote_vendor_never_faults (symbol : string) (env : Env) (st : State) :
  is_indian_stock symbol = true ->
  let clean_sym := get_clean_symbol symbol in
  let answer := get_quote symbol env st in
  (exists resp, fst answer = Ok resp)
  /\ (td_app st = None ->
      answer =
      (Ok (PDict [ ("symbol", PStr symbol); ("price", PInt 0);
                   ("status", PStr "Disconnected") ]), st))
  /\ (forall td, td_app st = Some td ->
      (start_live_data td [clean_sym] = Ok [] ->
       fst answer =
       Ok (PDict [ ("symbol", PStr symbol); ("price", PInt 0);
                   ("status", PStr "Invalid Symbol") ]))
      /\ (forall e, start_live_data td [clean_sym] = Raise e ->
          fst answer =
          Ok (PDict [ ("symbol", PStr symbol); ("price", PInt 0);
                      ("error", PStr (exn_str e)) ]))
      /\ (forall req_id rest,
          start_live_data td [clean_sym] = Ok (req_id :: rest) ->
          live_data td (clock st) !! req_id = None ->
          trace (snd answer) =
          (trace st ++ [ EvStartLiveData [clean_sym];
                         EvLiveDataLookup req_id;
                         EvSleep (2 # 10);
                         EvLiveDataLookup req_id ])%list
          /\ (live_data td (S (clock st)) !! req_id = None ->
              fst answer =
              Ok (PDict [ ("symbol", PStr symbol); ("price", PInt 0);
                          ("status", PStr "Waiting for tick...") ])))).
Proof.
  intros Hv clean_sym answer. subst answer clean_sym.
  rewrite (get_quote_vendor symbol env st Hv). cbv zeta.
  split; [|split].
  - destruct (td_app st) as [td|]; [|eauto].
    destruct (start_live_data td [get_clean_symbol symbol])
      as [[|req_id rest]|e]; [eauto| |eauto].
    destruct (live_data td (clock st) !! req_id); [eauto|].
    destruct (live_data td (S (clock st)) !! req_id); eauto.
  - now intros ->.
  - intros td ->. split; [|split].
    + now intros ->.
    + now intros e ->.
    + intros req_id rest -> ->. split.
      * destruct (live_data td (S (clock st)) !! req_id); reflexivity.
      * now intros ->.
Qed.

(** C3 on the examples: no session, an unknown symbol, a failing
    subscription, and a tick that never arrives. *)
Lemma quote_vendor_never_faults_witness :
  get_quote "RELIANCE.NS" (Example.no_credentials Example.timeout)
    initial_state
  = (Ok (PDict [ ("symbol", PStr "RELIANCE.NS"); ("price", PInt 0);
                 ("status", PStr "Disconnected") ]), initial_state)
  /\ fst (get_quote "RELIANCE.NS"
            (Example.connected Example.td_unknown Example.timeout)
            (Example.state_with Example.td_unknown))
     = Ok (PDict [ ("symbol", PStr "RELIANCE.NS"); ("price", PInt 0);
                   ("status", PStr "Invalid Symbol") ])
  /\ fst (get_quote "RELIANCE.NS"
            (Example.connected Example.td_broken Example.timeout)
            (Example.state_with Example.td_broken))
     = Ok (PDict [ ("symbol", PStr "RELIANCE.NS"); ("price", PInt 0);
                   ("error", PStr "socket closed") ])
  /\ fst (get_quote "RELIANCE.NS"
            (Example.connected Example.td_silent Example.timeout)
            (Example.state_with Example.td_silent))
     = Ok (PDict [ ("symbol", PStr "RELIANCE.NS"); ("price", PInt 0);
                   ("status", PStr "Waiting for tick...") ]).
Proof.
  split; [|split; [|split]].
  - destruct (quote_vendor_never_faults "RELIANCE.NS"
                (Example.no_credentials Example.timeout) initial_state
                eq_refl) as (_ & Hnone & _).
    exact (Hnone eq_refl).
  - destruct (quote_vendor_never_faults "RELIANCE.NS"
                (Example.connected Example.td_unknown Example.timeout)
                (Example.state_with Example.td_unknown) eq_refl)
      as (_ & _ & Hsome).
    destruct (Hsome Example.td_unknown eq_refl) as (Hinvalid & _).
    exact (Hinvalid eq_refl).
  - destruct (quote_vendor_never_faults "RELIANCE.NS"
                (Example.connected Example.td_broken Example.timeout)
                (Example.state_with Example.td_broken) eq_refl)
      as (_ & _ & Hsome).
    destruct (Hsome Example.td_broken eq_refl) as (_ & Hraise & _).
    exact (Hraise (Exception "ConnectionError" "socket closed") eq_refl).
  - destruct (quote_vendor_never_faults "RELIANCE.NS"
                (Example.connected Example.td_silent Example.timeout)
                (Example.state_with Example.td_silent) eq_refl)
      as (_ & _ & Hsome).
    destruct (Hsome Example.td_silent eq_refl) as (_ & _ & Hwait).
    destruct (Hwait 7 [] eq_refl eq_refl) as (_ & Hstill).
    exact (Hstill eq_refl).
Defined.

(** C10.  A response built from a tick carries currency "INR" and source
    "TrueData", and its [symbol] field is the symbol as it was given, not
    the canonical one. *)
Theorem quote_from_tick_currency_source
    (symbol : string) (env : Env) (st : State) (tick : Tick) :
  decision symbol = VENDOR ->
  quote_tick symbol st = Some tick ->
  exists resp,
    fst (get_quote symbol env st) = Ok resp
    /\ field resp "currency" = Some (PStr "INR")
    /\ field resp "source" = Some (PStr "TrueData")
    /\ field resp "symbol" = Some (PStr symbol).
Proof.
  intros _ Htick.
  destruct (get_quote_answer symbol env st) as (resp & Hresp & Hshape).
  rewrite Htick in Hshape. subst resp.
  exists (quote_of_tick symbol tick). split; [exact Hresp|].
  repeat split; reflexivity.
Qed.

(** C10 on the alias ["^NSEI"], whose canonical form is ["NIFTY 50"], with
    a tick that arrives during the sleep. *)
Lemma quote_from_tick_currency_source_witness :
  get_clean_symbol "^NSEI" = "NIFTY 50"
  /\ exists resp,
       fst (get_quote "^NSEI"
              (Example.connected Example.td_late Example.timeout)
              (Example.state_with Example.td_late)) = Ok resp
       /\ field resp "currency" = Some (PStr "INR")
       /\ field resp "source" = Some (PStr "TrueData")
       /\ field resp "symbol" = Some (PStr "^NSEI").
Proof.
  split; [reflexivity|].
  apply (quote_from_tick_currency_source "^NSEI"
           (Example.connected Example.td_late Example.timeout)
           (Example.state_with Example.td_late) Example.tick);
    reflexivity.
Defined.

(** ** [generate_mock_history] *)

(** The loop always completes; it draws two samples for each day and
    appends one candle for each day. *)
Lemma mock_loop_total (range : list nat) (now_ : Z) (env : Env) :
  forall (price : Q) (data : list pyval) (st : State),
  exists out,
    mock_loop range now_ price data env st =
    (Ok (data ++ out)%list,
     {| td_app := td_app st; rng := rng st + 2 * length range;
        clock := clock st; trace := trace st |})
    /\ length out = length range.
Proof.
  induction range as [|i range IH]; intros price data st.
  - exists []. destruct st; simpl. unfold ret.
    now rewrite app_nil_r, Nat.add_0_r.
  - cbn [mock_loop]. unfold uniform, random. run.
    match goal with
    | |- context [mock_loop range now_ ?p ?d env ?s] =>
        destruct (IH p d s) as (out & -> & Hlen)
    end.
    simpl. eexists (_ :: out). split.
    + rewrite <- app_assoc. simpl. repeat f_equal. lia.
    + simpl. now rewrite Hlen.
Qed.

(** The series depends on the state through the position in the random
    stream only. *)
Lemma mock_loop_rng (range : list nat) (now_ : Z) (env : Env) :
  forall (price : Q) (data : list pyval) (st st' : State),
    rng st = rng st' ->
    fst (mock_loop range now_ price data env st)
    = fst (mock_loop range now_ price data env st').
Proof.
  induction range as [|i range IH]; intros price data st st' Hrng.
  - reflexivity.
  - destruct st as [td r c tr], st' as [td' r' c' tr']. simpl in Hrng.
    subst r'. cbn [mock_loop]. unfold uniform, random. run.
    apply IH. reflexivity.
Qed.

Lemma generate_mock_history_total (base_price : Q) (env : Env) (st : State) :
  exists candles,
    generate_mock_history base_price env st =
    (Ok (PList candles),
     {| td_app := td_app st; rng := rng st + 60; clock := clock st;
        trace := trace st |})
    /\ length candles = 30%nat.
Proof.
  unfold generate_mock_history, bind, ask, ret.
  destruct (mock_loop_total (seq 0 30) (now env) env base_price [] st)
    as (out & -> & Hlen).
  exists out. split; [reflexivity | exact Hlen].
Qed.

Lemma generate_mock_history_rng (base_price : Q) (env : Env) (st st' : State) :
  rng st = rng st' ->
  fst (generate_mock_history base_price env st)
  = fst (generate_mock_history base_price env st').
Proof.
  intros Hrng. unfold generate_mock_history, bind, ask, ret.
  pose proof (mock_loop_rng (seq 0 30) (now env) env base_price [] st st' Hrng)
    as H.
  destruct (mock_loop (seq 0 30) (now env) base_price [] env st) as [[o|e] s],
    (mock_loop (seq 0 30) (now env) base_price [] env st') as [[o'|e'] s'];
    simpl in *; congruence.
Qed.

(** Replaces a run of the mock generator by its result. *)
Ltac mock_total :=
  match goal with
  | |- context [generate_mock_history ?b ?env ?s] =>
      let cs := fresh "cs" in
      let E := fresh "E" in
      destruct (generate_mock_history_total b env s) as (cs & E & _);
      rewrite E; clear E
  end.

(** ** [/history] *)

Lemma get_history_mock (symbol period : string) (env : Env) (st : State) :
  is_indian_stock symbol = false ->
  get_history symbol period env st
  = generate_mock_history default_base_price env st.
Proof. intros Hm. unfold get_history. now rewrite Hm. Qed.

(** What [get_history] answers and does for a symbol routed to the
    vendor, by the outcome of its request. *)
Lemma get_history_vendor (symbol period : string) (env : Env) (st : State) :
  is_indian_stock symbol = true ->
  let get :=
    EvGet TD_HISTORY_URL
      (history_params env (get_clean_symbol symbol)
         (snd (period_window period))
         (now env - fst (period_window period)) (now env)) 5 in
  get_history symbol period env st =
  match history_request env symbol period with
  | Raise e =>
      generate_mock_history default_base_price env
        (after st [get; EvPrint [PStr "History Exception: ";
                                 PStr (exn_str e)]] 0)
  | Ok response =>
      if status_code response =? 200 then
        match parse_history response with
        | Ok chart_data => (Ok chart_data, after st [get] 0)
        | Raise e =>
            generate_mock_history default_base_price env
              (after st [get; EvPrint [PStr "History Exception: ";
                                       PStr (exn_str e)]] 0)
        end
      else
        generate_mock_history default_base_price env
          (after st [get; EvPrint [PStr "History API Error: ";
                                   PInt (status_code response)]] 0)
  end.
Proof.
  intros Hv get. unfold get_history, history_request. rewrite Hv. simpl.
  destruct (period_window period) as [days resolution] eqn:Hw. simpl.
  subst get. unfold after. destruct st as [td r c tr]. run.
  rewrite !Nat.add_0_r.
  destruct (requests_get env TD_HISTORY_URL _ 5) as [response|e];
    cbn -[generate_mock_history].
  - destruct (status_code response =? 200); cbn -[generate_mock_history].
    + destruct (parse_history response); cbn -[generate_mock_history];
        rewrite <- ?app_assoc; cbn [app]; [reflexivity|].
      mock_total. reflexivity.
    + rewrite <- ?app_assoc; cbn [app]. mock_total. reflexivity.
  - rewrite <- ?app_assoc; cbn [app]. mock_total. reflexivity.
Qed.

(** On rows that are lists the loop keeps, in order, the candles of the
    rows of five fields or more. *)
Lemma history_rows_lists (rows : list (list pyval)) :
  forall chart_data,
    history_rows (map PList rows) chart_data
    = Ok (chart_data ++ omap candle_of_row rows)%list.
Proof.
  induction rows as [|row rows IH]; intros chart_data.
  - simpl. now rewrite app_nil_r.
  - cbn [map history_rows py_len obind].
    destruct row as [|f0 [|f1 [|f2 [|f3 [|f4 [|f5 row]]]]]];
      cbn; rewrite IH; cbn; try reflexivity;
      now rewrite <- app_assoc.
Qed.

Lemma parse_history_rows (response : Response) (items : list (string * pyval))
    (rows : list (list pyval)) :
  json response = Ok (PDict items) ->
  assoc "Records" items = Some (PList (map PList rows)) ->
  parse_history response = Ok (PList (omap candle_of_row rows)).
Proof.
  intros Hjson Hrec. unfold parse_history. rewrite Hjson. cbn.
  rewrite Hrec. cbn. now rewrite history_rows_lists.
Qed.

(** A body that is no JSON, or whose JSON is no object, does not parse. *)
Lemma parse_history_raises (response : Response) :
  (exists e, json response = Raise e)
  \/ (exists v, json response = Ok v /\ type_name v <> "dict") ->
  exists e, parse_history response = Raise e.
Proof.
  unfold parse_history. intros [[e ->] | (v & -> & Hv)]; cbn; [eauto|].
  destruct v; cbn; eauto. now contradict Hv.
Qed.

Lemma vendor_calls_app (tr tr' : list event) :
  vendor_calls (tr ++ tr') = (vendor_calls tr ++ vendor_calls tr')%list.
Proof. apply filter_app. Qed.

(** A symbol routed to the vendor costs exactly one request, the first
    event of the handler. *)
Lemma get_history_vendor_trace (symbol period : string) (env : Env)
    (st : State) :
  is_indian_stock symbol = true ->
  exists rest,
    trace (snd (get_history symbol period env st))
    = (trace st ++
       EvGet TD_HISTORY_URL
         (history_params env (get_clean_symbol symbol)
            (snd (period_window period))
            (now env - fst (period_window period)) (now env)) 5
       :: rest)%list
    /\ vendor_calls rest = [].
Proof.
  intros Hv. rewrite (get_history_vendor symbol period env st Hv). cbv zeta.
  destruct (history_request env symbol period) as [response|e].
  - destruct (status_code response =? 200).
    + destruct (parse_history response) as [chart|e].
      * exists []. split; reflexivity.
      * match goal with
        | |- context [generate_mock_history ?b env ?s] =>
            destruct (generate_mock_history_total b env s) as (cs & -> & _)
        end.
        eexists [_]. split; reflexivity.
    + match goal with
      | |- context [generate_mock_history ?b env ?s] =>
          destruct (generate_mock_history_total b env s) as (cs & -> & _)
      end.
      eexists [_]. split; reflexivity.
  - match goal with
    | |- context [generate_mock_history ?b env ?s] =>
        destruct (generate_mock_history_total b env s) as (cs & -> & _)
    end.
    eexists [_]. split; reflexivity.
Qed.

(** The mock series produced after a failed request is the series of 30
    candles a symbol routed to the mock gets. *)
Lemma mock_answer (period : string) (env : Env) (st st' : State) :
  rng st' = rng st ->
  (exists candles,
     fst (generate_mock_history default_base_price env st')
     = Ok (PList candles) /\ length candles = 30%nat)
  /\ forall other,
       is_indian_stock other = false ->
       fst (generate_mock_history default_base_price env st')
       = fst (get_history other period env st).
Proof.
  intros Hrng. split.
  - destruct (generate_mock_history_total default_base_price env st')
      as (cs & E & Hlen).
    rewrite E. eauto.
  - intros other Hm. rewrite (get_history_mock other period env st Hm).
    now apply generate_mock_history_rng.
Qed.

(** After a failed request the answer is the mock series. *)
Lemma history_failure_mock (symbol period : string) (env : Env) (st : State) :
  is_indian_stock symbol = true ->
  history_fails (history_request env symbol period) ->
  (exists candles,
     fst (get_history symbol period env st) = Ok (PList candles)
     /\ length candles = 30%nat)
  /\ forall other,
       is_indian_stock other = false ->
       fst (get_history symbol period env st)
       = fst (get_history other period env st).
Proof.
  intros Hv. rewrite (get_history_vendor symbol period env st Hv). cbv zeta.
  unfold history_fails.
  destruct (history_request env symbol period) as [response|e].
  - intros [Hstatus | [e Hparse]].
    + apply Z.eqb_neq in Hstatus. rewrite Hstatus.
      apply mock_answer. reflexivity.
    + destruct (status_code response =? 200); [rewrite Hparse|];
        apply mock_answer; reflexivity.
  - intros _. apply mock_answer. reflexivity.
Qed.

(** C4.  For a symbol routed to the vendor [/history] always answers.  On
    status 200 with a payload of rows, every row of five fields or more
    becomes one candle (volume 0 when there is no sixth field) and the
    shorter rows are dropped.  When the request raises, the status is not
    200 or the payload does not parse, the answer is the series of 30 mock
    candles that a symbol routed to the mock gets. *)
Theorem history_vendor_never_errors
    (symbol period : string) (env : Env) (st : State) :
  is_indian_stock symbol = true ->
  let answer := fst (get_history symbol period env st) in
  (exists resp, answer = Ok resp)
  /\ (forall response items rows,
        history_request env symbol period = Ok response ->
        status_code response = 200 ->
        json response = Ok (PDict items) ->
        assoc "Records" items = Some (PList (map PList rows)) ->
        answer = Ok (PList (omap candle_of_row rows)))
  /\ (history_fails (history_request env symbol period) ->
      (exists candles,
         answer = Ok (PList candles) /\ length candles = 30%nat)
      /\ forall other,
           is_indian_stock other = false ->
           answer = fst (get_history other period env st)).
Proof.
  intros Hv answer. subst answer.
  rewrite (get_history_vendor symbol period env st Hv). cbv zeta.
  split; [|split].
  - destruct (history_request env symbol period) as [response|e].
    + destruct (status_code response =? 200).
      * destruct (parse_history response) as [chart|e]; [simpl; eauto|].
        mock_total. simpl. eauto.
      * mock_total. simpl. eauto.
    + mock_total. simpl. eauto.
  - intros response items rows -> Hstatus Hjson Hrec.
    rewrite Hstatus. cbn -[generate_mock_history].
    now rewrite (parse_history_rows response items rows Hjson Hrec).
  - intros Hfail.
    pose proof (history_failure_mock symbol period env st Hv Hfail) as H.
    now rewrite (get_history_vendor symbol period env st Hv) in H.
Qed.

(** C4 on the examples: a payload with a full row, a row without volume
    and a short row; and a request that times out. *)
Lemma history_vendor_never_errors_witness :
  fst (get_history "TCS.NS" "1mo"
         (Example.connected Example.td_cached
            (Example.ok_json Example.records))
         (Example.state_with Example.td_cached))
  = Ok (PList
          [ PDict [ ("date", PStr "2026-10-30"); ("open", PInt 100);
                    ("high", PInt 104); ("low", PInt 99);
                    ("close", PInt 103); ("volume", PInt 5000) ];
            PDict [ ("date", PStr "2026-10-31"); ("open", PInt 103);
                    ("high", PInt 105); ("low", PInt 101);
                    ("close", PInt 102); ("volume", PInt 0) ] ])
  /\ fst (get_history "TCS.NS" "1mo"
            (Example.connected Example.td_cached Example.timeout)
            (Example.state_with Example.td_cached))
     = fst (get_history "AAPL" "1mo"
              (Example.connected Example.td_cached Example.timeout)
              (Example.state_with Example.td_cached)).
Proof.
  split.
  - destruct (history_vendor_never_errors "TCS.NS" "1mo"
                (Example.connected Example.td_cached
                   (Example.ok_json Example.records))
                (Example.state_with Example.td_cached) eq_refl)
      as (_ & Hrows & _).
    exact (Hrows _ _
             [ [ PStr "2026-10-30"; PInt 100; PInt 104; PInt 99; PInt 103;
                 PInt 5000 ];
               [ PStr "2026-10-31"; PInt 103; PInt 105; PInt 101; PInt 102 ];
               [ PStr "2026-11-02"; PInt 102 ] ]
             eq_refl eq_refl eq_refl eq_refl).
  - destruct (history_vendor_never_errors "TCS.NS" "1mo"
                (Example.connected Example.td_cached Example.timeout)
                (Example.state_with Example.td_cached) eq_refl)
      as (_ & _ & Hfail).
    destruct (Hfail I) as (_ & Hsame).
    exact (Hsame "AAPL" eq_refl).
Defined.

Lemma period_window_cases (period : string) :
  (period = "1d" -> period_window period = (5, "15min"))
  /\ (period = "1y" -> period_window period = (365, "EOD"))
  /\ (period <> "1d" -> period <> "1y" -> period_window period = (30, "EOD")).
Proof.
  unfold period_window. repeat split.
  - now intros ->.
  - now intros ->.
  - intros H1 H2. apply String.eqb_neq in H1, H2. now rewrite H1, H2.
Qed.

(** C5.  For a symbol routed to the vendor the one history request covers
    the days from [days] before today up to today at [resolution], where
    period "1d" gives 5 days at "15min", "1y" gives 365 days at "EOD" and
    every other period gives 30 days at "EOD"; a period other than "1d"
    and "1y" is handled exactly as "1mo". *)
Theorem history_period_window
    (symbol period : string) (env : Env) (st : State) :
  is_indian_stock symbol = true ->
  (exists days resolution params rest,
     (period = "1d" -> days = 5 /\ resolution = "15min")
     /\ (period = "1y" -> days = 365 /\ resolution = "EOD")
     /\ (period <> "1d" -> period <> "1y" ->
         days = 30 /\ resolution = "EOD")
     /\ trace (snd (get_history symbol period env st))
        = (trace st ++ EvGet TD_HISTORY_URL params 5 :: rest)%list
     /\ vendor_calls rest = []
     /\ assoc "resolution" params = Some (PStr resolution)
     /\ assoc "from" params
        = Some (PStr (strftime env "%y%m%d" (now env - days)))
     /\ assoc "to" params = Some (PStr (strftime env "%y%m%d" (now env))))
  /\ (period <> "1d" -> period <> "1y" ->
      get_history symbol period env st = get_history symbol "1mo" env st).
Proof.
  intros Hv.
  destruct (period_window_cases period) as (H1d & H1y & Hother).
  split.
  - destruct (get_history_vendor_trace symbol period env st Hv)
      as (rest & Htrace & Hrest).
    exists (fst (period_window period)), (snd (period_window period)).
    do 2 eexists.
    split; [|split; [|split; [|split; [exact Htrace|]]]].
    + intros E. now rewrite (H1d E).
    + intros E. now rewrite (H1y E).
    + intros E1 E2. now rewrite (Hother E1 E2).
    + repeat split; [exact Hrest | reflexivity ..].
  - intros E1 E2.
    rewrite (get_history_vendor symbol period env st Hv),
      (get_history_vendor symbol "1mo" env st Hv).
    unfold history_request. now rewrite (Hother E1 E2).
Qed.

(** C5 on the examples: the day period, and a period nobody defined. *)
Lemma history_period_window_witness :
  (exists days resolution params rest,
     ("1d" = "1d" -> days = 5 /\ resolution = "15min")
     /\ ("1d" = "1y" -> days = 365 /\ resolution = "EOD")
     /\ ("1d" <> "1d" -> "1d" <> "1y" -> days = 30 /\ resolution = "EOD")
     /\ trace (snd (get_history "TCS.NS" "1d"
                      (Example.connected Example.td_cached Example.timeout)
                      (Example.state_with Example.td_cached)))
        = ([] ++ EvGet TD_HISTORY_URL params 5 :: rest)%list
     /\ vendor_calls rest = []
     /\ assoc "resolution" params = Some (PStr resolution)
     /\ assoc "from" params = Some (PStr (Example.render "%y%m%d" (739923 - days)))
     /\ assoc "to" params = Some (PStr (Example.render "%y%m%d" 739923)))
  /\ get_history "TCS.NS" "5y"
       (Example.connected Example.td_cached Example.timeout)
       (Example.state_with Example.td_cached)
     = get_history "TCS.NS" "1mo"
         (Example.connected Example.td_cached Example.timeout)
         (Example.state_with Example.td_cached).
Proof.
  split.
  - exact (proj1 (history_period_window "TCS.NS" "1d"
                    (Example.connected Example.td_cached Example.timeout)
                    (Example.state_with Example.td_cached) eq_refl)).
  - apply (history_period_window "TCS.NS" "5y"
             (Example.connected Example.td_cached Example.timeout)
             (Example.state_with Example.td_cached) eq_refl);
      discriminate.
Defined.

(** ** [/fundamentals] *)

Lemma get_fundamentals_mock (symbol : string) (env : Env) (st : State) :
  is_indian_stock symbol = false ->
  get_fundamentals symbol env st = (Ok (empty_data symbol), st).
Proof. intros Hm. unfold get_fundamentals. now rewrite Hm. Qed.

(** What [get_fundamentals] answers and does for a symbol routed to the
    vendor, by the outcome of its request. *)
Lemma get_fundamentals_vendor (symbol : string) (env : Env) (st : State) :
  is_indian_stock symbol = true ->
  let get :=
    EvGet (TD_FUNDAMENTAL_URL ++ "/company_info")
      (fundamentals_params env symbol) 3 in
  get_fundamentals symbol env st =
  match fundamentals_request env symbol with
  | Raise e =>
      (Ok (empty_data symbol),
       after st [get; EvPrint [PStr "Connection Error: ";
                               PStr (exn_str e)]] 0)
  | Ok response =>
      if status_code response =? 200 then
        match (real_data <- json response ;; overlay real_data)%out with
        | Ok record => (Ok record, after st [get] 0)
        | Raise e =>
            (Ok (empty_data symbol),
             after st [get; EvPrint [PStr "Connection Error: ";
                                     PStr (exn_str e)]] 0)
        end
      else
        (Ok (empty_data symbol),
         after st [get; EvPrint [PStr "API Failed ";
                                 PInt (status_code response);
                                 PStr ": Returning Empty Data"]] 0)
  end.
Proof.
  intros Hv get. unfold get_fundamentals, fundamentals_request,
    fundamentals_params. rewrite Hv.
  subst get. unfold after, fundamentals_params.
  destruct st as [td r c tr]. run. rewrite !Nat.add_0_r.
  destruct (requests_get env _ _ 3) as [response|e]; simpl.
  - destruct (status_code response =? 200); simpl.
    + destruct (obind (json response) _); simpl;
        now rewrite <- ?app_assoc.
    + now rewrite <- ?app_assoc.
  - now rewrite <- ?app_assoc.
Qed.

(** After a failed request the answer is [empty_data]. *)
Lemma get_fundamentals_failure (symbol : string) (env : Env) (st : State) :
  fundamentals_fails (fundamentals_request env symbol) ->
  fst (get_fundamentals symbol env st) = Ok (empty_data symbol).
Proof.
  intros Hfail. destruct (is_indian_stock symbol) eqn:Hr.
  - rewrite (get_fundamentals_vendor symbol env st Hr). cbv zeta.
    unfold fundamentals_fails in Hfail.
    destruct (fundamentals_request env symbol) as [response|e];
      [|reflexivity].
    destruct Hfail as [Hstatus | [e Hread]].
    + apply Z.eqb_neq in Hstatus. now rewrite Hstatus.
    + rewrite Hread. now destruct (status_code response =? 200).
  - now rewrite (get_fundamentals_mock symbol env st Hr).
Qed.

(** C6.  When the vendor call of [/fundamentals] fails, the answer is the
    default record untouched: every ratio 0, the shareholding 0 for
    promoters, institutions and public, the recommendation "WAITING" with
    targets 0, and the currency "INR" for a symbol routed to the vendor
    and "USD" for one routed to the mock. *)
Theorem fundamentals_failure_default_record
    (symbol : string) (env : Env) (st : State) :
  fundamentals_fails (fundamentals_request env symbol) ->
  fst (get_fundamentals symbol env st) =
  Ok (PDict
        [ ("market_cap", PInt 0);
          ("pe_ratio", PInt 0);
          ("peg_ratio", PInt 0);
          ("book_value", PInt 0);
          ("dividend_yield", PInt 0);
          ("eps", PInt 0);
          ("profit_margin", PInt 0);
          ("roe", PInt 0);
          ("debt_to_equity", PInt 0);
          ("shareholding",
           PDict [ ("promoters", PInt 0); ("institutions", PInt 0);
                   ("public", PInt 0) ]);
          ("forecast",
           PDict [ ("recommendation", PStr "WAITING");
                   ("targetMean", PInt 0);
                   ("targetLow", PInt 0);
                   ("targetHigh", PInt 0) ]);
          ("currency",
           PStr match decision symbol with
                | VENDOR => "INR"
                | MOCK => "USD"
                end) ]).
Proof.
  intros Hfail.
  rewrite (get_fundamentals_failure symbol env st Hfail).
  unfold empty_data, decision. now destruct (is_indian_stock symbol).
Qed.

(** C6 on the examples: a rejected request for a vendor symbol and a
    time-out on a symbol that is not asked of the vendor at all. *)
Lemma fundamentals_failure_default_record_witness :
  (exists record,
     fst (get_fundamentals "TCS.NS"
            (Example.connected Example.td_cached Example.unauthorized)
            (Example.state_with Example.td_cached)) = Ok record
     /\ field record "pe_ratio" = Some (PInt 0)
     /\ field record "currency" = Some (PStr "INR"))
  /\ (exists record,
        fst (get_fundamentals "AAPL"
               (Example.connected Example.td_cached Example.timeout)
               (Example.state_with Example.td_cached)) = Ok record
        /\ field record "pe_ratio" = Some (PInt 0)
        /\ field record "currency" = Some (PStr "USD")).
Proof.
  split.
  - eexists. split.
    + apply (fundamentals_failure_default_record "TCS.NS"
               (Example.connected Example.td_cached Example.unauthorized)
               (Example.state_with Example.td_cached)).
      left. discriminate.
    + split; reflexivity.
  - eexists. split.
    + apply (fundamentals_failure_default_record "AAPL"
               (Example.connected Example.td_cached Example.timeout)
               (Example.state_with Example.td_cached)).
      exact I.
    + split; reflexivity.
Defined.

(** On a JSON object every ratio and target is the vendor's value, 0 when
    the object lacks it, and the recommendation is "N/A" when lacking;
    the shareholding is passed on as the vendor gives it, and is the
    empty dict when lacking. *)
Lemma overlay_object (items : list (string * pyval)) :
  let get key dflt := default dflt (assoc key items) in
  overlay (PDict items) =
  Ok (PDict
        [ ("market_cap", get "market_cap" (PInt 0));
          ("pe_ratio", get "pe" (PInt 0));
          ("peg_ratio", get "peg" (PInt 0));
          ("book_value", get "book_value" (PInt 0));
          ("dividend_yield", get "dividend_yield" (PInt 0));
          ("eps", get "eps" (PInt 0));
          ("profit_margin", get "profit_margin" (PInt 0));
          ("roe", get "roe" (PInt 0));
          ("debt_to_equity", get "debt_to_equity" (PInt 0));
          ("shareholding", get "shareholding" (PDict []));
          ("forecast",
           PDict [ ("recommendation", get "recommendation" (PStr "N/A"));
                   ("targetMean", get "target_price" (PInt 0));
                   ("targetLow", get "target_low" (PInt 0));
                   ("targetHigh", get "target_high" (PInt 0)) ]);
          ("currency", PStr "INR") ]).
Proof. reflexivity. Qed.

(** C7 (defect).  A status 200 whose body lacks [shareholding] yields a
    record whose shareholding is the empty dict: the breakdown into
    promoters, institutions and public that the default record carries is
    absent, so the shape is partial. *)
Theorem fundamentals_success_partial_shareholding :
  exists record breakdown,
    fst (get_fundamentals "TCS.NS"
           (Example.connected Example.td_cached
              (Example.ok_json
                 (PDict [ ("market_cap", PInt 1400000);
                          ("pe", PFloat (43 # 2)) ])))
           (Example.state_with Example.td_cached)) = Ok record
    /\ field record "pe_ratio" = Some (PFloat (43 # 2))
    /\ field record "eps" = Some (PInt 0)
    /\ field record "shareholding" = Some breakdown
    /\ breakdown = PDict []
    /\ field breakdown "promoters" = None
    /\ field breakdown "institutions" = None
    /\ field breakdown "public" = None
    /\ field (empty_data "TCS.NS") "shareholding"
       = Some (PDict [ ("promoters", PInt 0); ("institutions", PInt 0);
                       ("public", PInt 0) ]).
Proof. do 2 eexists. repeat split; reflexivity. Qed.

(** ** Start-up without credentials *)

(** Without a user name the start-up only prints; it neither connects nor
    fails. *)
Lemma startup_without_user (env : Env) (st : State) :
  getenv_truthy (TD_USER env) = false ->
  startup_event env st =
  (Ok tt,
   after st [EvPrint [PStr "TrueData credentials missing in .env file."]] 0).
Proof.
  intros Hu. unfold startup_event. run. rewrite Hu.
  unfold after. destruct st; simpl. now rewrite Nat.add_0_r.
Qed.

Lemma serve_without_user {A} (handler : M A) (env : Env) :
  getenv_truthy (TD_USER env) = false ->
  serve handler env initial_state =
  handler env
    (after initial_state
       [EvPrint [PStr "TrueData credentials missing in .env file."]] 0).
Proof.
  intros Hu. unfold serve, bind.
  now rewrite (startup_without_user env initial_state Hu).
Qed.

(** C8 (as stated) fails: in a process started without credentials
    [/history] and [/fundamentals] still send their request for a symbol
    routed to the vendor, and serve what the vendor answers. *)
Lemma requests_sent_without_credentials :
  TD_USER (Example.no_credentials (Example.ok_json Example.records)) = None
  /\ TD_PASS (Example.no_credentials (Example.ok_json Example.records)) = None
  /\ vendor_calls
       (trace (snd (serve (get_history "TCS.NS" "1mo")
                      (Example.no_credentials
                         (Example.ok_json Example.records))
                      initial_state)))
     = [ EvGet "https://history.truedata.in/gethistory"
           [ ("symbol", PStr "TCS"); ("resolution", PStr "EOD");
             ("from", PStr "261004"); ("to", PStr "261103");
             ("response", PStr "json"); ("user", PNone); ("pass", PNone) ]
           5 ]
  /\ fst (serve (get_history "TCS.NS" "1mo")
            (Example.no_credentials (Example.ok_json Example.records))
            initial_state)
     = Ok (PList
             [ PDict [ ("date", PStr "2026-10-30"); ("open", PInt 100);
                       ("high", PInt 104); ("low", PInt 99);
                       ("close", PInt 103); ("volume", PInt 5000) ];
               PDict [ ("date", PStr "2026-10-31"); ("open", PInt 103);
                       ("high", PInt 105); ("low", PInt 101);
                       ("close", PInt 102); ("volume", PInt 0) ] ])
  /\ vendor_calls
       (trace (snd (serve (get_fundamentals "TCS.NS")
                      (Example.no_credentials Example.unauthorized)
                      initial_state)))
     = [ EvGet "https://api.truedata.in/fundamental/company_info"
           [ ("symbol", PStr "TCS"); ("user", PNone); ("pass", PNone) ]
           3 ].
Proof.
  split; [reflexivity|]. split; [reflexivity|].
  split; [vm_compute; reflexivity|].
  split; vm_compute; reflexivity.
Qed.

(** C8 (amended).  In a process started without credentials the start-up
    succeeds and leaves no session, nothing having been called.  Then, for
    every symbol, [/quote] calls nothing, and answers "Disconnected" for a
    symbol routed to the vendor; for a symbol routed to the mock
    [/history] and [/fundamentals] call nothing and answer the mock series
    and the default record; for a symbol routed to the vendor each of the
    two sends its one request, without user and password, and answers the
    mock series, respectively the default record, when that request
    fails. *)
Theorem no_credentials_degraded_mode (env : Env) :
  TD_USER env = None ->
  TD_PASS env = None ->
  (exists st0,
     startup_event env initial_state = (Ok tt, st0)
     /\ td_app st0 = None /\ vendor_calls (trace st0) = [])
  /\ (forall symbol,
        let run := serve (get_quote symbol) env initial_state in
        vendor_calls (trace (snd run)) = []
        /\ (is_indian_stock symbol = true ->
            fst run =
            Ok (PDict [ ("symbol", PStr symbol); ("price", PInt 0);
                        ("status", PStr "Disconnected") ])))
  /\ (forall symbol period,
        is_indian_stock symbol = false ->
        let history := serve (get_history symbol period) env initial_state in
        let fundamentals :=
          serve (get_fundamentals symbol) env initial_state in
        vendor_calls (trace (snd history)) = []
        /\ (exists candles,
              fst history = Ok (PList candles) /\ length candles = 30%nat)
        /\ vendor_calls (trace (snd fundamentals)) = []
        /\ fst fundamentals = Ok (empty_data symbol))
  /\ (forall symbol period,
        is_indian_stock symbol = true ->
        let history := serve (get_history symbol period) env initial_state in
        let fundamentals :=
          serve (get_fundamentals symbol) env initial_state in
        (exists params,
           vendor_calls (trace (snd history))
           = [EvGet TD_HISTORY_URL params 5]
           /\ assoc "user" params = Some PNone
           /\ assoc "pass" params = Some PNone)
        /\ (history_fails (history_request env symbol period) ->
            exists candles,
              fst history = Ok (PList candles) /\ length candles = 30%nat)
        /\ (exists params,
              vendor_calls (trace (snd fundamentals))
              = [EvGet (TD_FUNDAMENTAL_URL ++ "/company_info") params 3]
              /\ assoc "user" params = Some PNone
              /\ assoc "pass" params = Some PNone)
        /\ (fundamentals_fails (fundamentals_request env symbol) ->
            fst fundamentals = Ok (empty_data symbol))).
Proof.
  intros Huser Hpass.
  assert (Hu : getenv_truthy (TD_USER env) = false) by now rewrite Huser.
  set (st0 := after initial_state
                [EvPrint [PStr "TrueData credentials missing in .env file."]]
                0).
  split; [|split; [|split]].
  - exists st0. now rewrite (startup_without_user env initial_state Hu).
  - intros symbol run. subst run. rewrite (serve_without_user _ env Hu).
    fold st0. destruct (is_indian_stock symbol) eqn:Hr.
    + rewrite (get_quote_vendor symbol env st0 Hr). simpl. now split.
    + destruct (get_quote_mock symbol env st0 Hr) as (p & c & cp & ->).
      simpl. now split.
  - intros symbol period Hr history fundamentals.
    subst history fundamentals. rewrite !(serve_without_user _ env Hu).
    fold st0. rewrite (get_history_mock symbol period env st0 Hr),
      (get_fundamentals_mock symbol env st0 Hr).
    destruct (generate_mock_history_total default_base_price env st0)
      as (cs & -> & Hlen).
    simpl. repeat split; eauto.
  - intros symbol period Hr history fundamentals.
    subst history fundamentals. rewrite !(serve_without_user _ env Hu).
    fold st0. split; [|split; [|split]].
    + destruct (get_history_vendor_trace symbol period env st0 Hr)
        as (rest & -> & Hrest).
      eexists. split.
      * rewrite vendor_calls_app. simpl.
        unfold vendor_calls in *. rewrite filter_cons. simpl.
        rewrite Hrest. reflexivity.
      * unfold history_params. rewrite Huser, Hpass. split; reflexivity.
    + intros Hfail.
      apply (history_failure_mock symbol period env st0 Hr Hfail).
    + rewrite (get_fundamentals_vendor symbol env st0 Hr). cbv zeta.
      eexists. split.
      * destruct (fundamentals_request env symbol) as [response|e];
          [destruct (status_code response =? 200);
           [destruct (obind (json response) _)|]|]; reflexivity.
      * unfold fundamentals_params. rewrite Huser, Hpass. split; reflexivity.
    + intros Hfail.
      apply (get_fundamentals_failure symbol env st0 Hfail).
Qed.

(** C8 (amended) in the example process started without credentials,
    whose vendor lets every request time out. *)
Lemma no_credentials_degraded_mode_witness :
  (exists st0,
     startup_event (Example.no_credentials Example.timeout) initial_state
     = (Ok tt, st0)
     /\ td_app st0 = None /\ vendor_calls (trace st0) = [])
  /\ fst (serve (get_quote "TCS.NS")
            (Example.no_credentials Example.timeout) initial_state)
     = Ok (PDict [ ("symbol", PStr "TCS.NS"); ("price", PInt 0);
                   ("status", PStr "Disconnected") ])
  /\ vendor_calls
       (trace (snd (serve (get_fundamentals "AAPL")
                      (Example.no_credentials Example.timeout)
                      initial_state))) = []
  /\ (exists params,
        vendor_calls
          (trace (snd (serve (get_history "TCS.NS" "1mo")
                         (Example.no_credentials Example.timeout)
                         initial_state)))
        = [EvGet TD_HISTORY_URL params 5]
        /\ assoc "user" params = Some PNone
        /\ assoc "pass" params = Some PNone)
  /\ fst (serve (get_fundamentals "TCS.NS")
            (Example.no_credentials Example.timeout) initial_state)
     = Ok (empty_data "TCS.NS").
Proof.
  destruct (no_credentials_degraded_mode
              (Example.no_credentials Example.timeout) eq_refl eq_refl)
    as (Hstart & Hquote & Hmock & Hvendor).
  split; [exact Hstart|].
  split; [exact (proj2 (Hquote "TCS.NS") eq_refl)|].
  split; [exact (proj1 (proj2 (proj2 (Hmock "AAPL" "1mo" eq_refl))))|].
  destruct (Hvendor "TCS.NS" "1mo" eq_refl) as (Hget & _ & _ & Hdefault).
  split; [exact Hget | exact (Hdefault I)].
Defined.

(** ** The mock series under float arithmetic *)

Section MockHistory.

Local Open Scope Q_scope.

Variable env : Env.

(** [fl] rounds to a nearest float: it is monotone, accurate to 1e-9 on
    the range the generator works in, exact on the integers up to 2^53,
    and leaves a float unchanged.  [random.random()] lies in [0, 1). *)
Hypothesis fl_monotone : forall x y : Q, x <= y -> fl env x <= fl env y.
Hypothesis fl_accurate :
  forall x : Q,
    - (100000) <= x <= 100000 ->
    x - (1 # 1000000000) <= fl env x <= x + (1 # 1000000000).
Hypothesis fl_integer :
  forall z : Z, (Z.abs z <= 2 ^ 53)%Z -> fl env (inject_Z z) == inject_Z z.
Hypothesis fl_idempotent : forall x : Q, fl env (fl env x) == fl env x.
Hypothesis random_unit : forall n : nat, 0 <= random_stream env n < 1.

Lemma fl_proper (x y : Q) : x == y -> fl env x == fl env y.
Proof.
  intros E. apply Qle_antisym; apply fl_monotone; lra.
Qed.

Lemma fl_small_integer (z : Z) :
  (Z.abs z <= 10000)%Z -> fl env (inject_Z z) == inject_Z z.
Proof. intros Hz. apply fl_integer. lia. Qed.

(** *** Rounding to the nearest integer *)

Lemma round_half_even_floor (q : Q) :
  (Qfloor q <= round_half_even q <= Qfloor q + 1)%Z.
Proof.
  unfold round_half_even.
  destruct (Qcompare (q - inject_Z (Qfloor q)) (1 # 2));
    [destruct (Z.even (Qfloor q))| |]; lia.
Qed.

Lemma round_half_even_near (q : Q) :
  - (1 # 2) <= inject_Z (round_half_even q) - q <= 1 # 2.
Proof.
  unfold round_half_even.
  pose proof (Qfloor_le q) as Hlo. pose proof (Qlt_floor q) as Hhi.
  rewrite inject_Z_plus in Hhi. change (inject_Z 1) with 1 in Hhi.
  cbv zeta.
  destruct (Qcompare_spec (q - inject_Z (Qfloor q)) (1 # 2)) as [E|E|E].
  - destruct (Z.even (Qfloor q)); rewrite ?inject_Z_plus;
      change (inject_Z 1) with 1; lra.
  - lra.
  - rewrite inject_Z_plus. change (inject_Z 1) with 1. lra.
Qed.

Lemma round_half_even_monotone (x y : Q) :
  x <= y -> (round_half_even x <= round_half_even y)%Z.
Proof.
  intros Hxy.
  pose proof (Qfloor_resp_le x y Hxy) as Hf.
  pose proof (round_half_even_floor x) as Hx.
  pose proof (round_half_even_floor y) as Hy.
  destruct (Z.eq_dec (Qfloor x) (Qfloor y)) as [E|E]; [|lia].
  clear Hx Hy Hf. unfold round_half_even. rewrite E.
  destruct (Qcompare_spec (x - inject_Z (Qfloor y)) (1 # 2)) as [Ex|Ex|Ex];
    destruct (Qcompare_spec (y - inject_Z (Qfloor y)) (1 # 2)) as [Ey|Ey|Ey];
    try destruct (Z.even (Qfloor y)); try lia; exfalso; lra.
Qed.

(** *** Products of bounded quantities *)

Lemma mult_interval (a c A C : Q) :
  - A <= a <= A -> 0 <= c <= C -> - (A * C) <= a * c <= A * C.
Proof. intros. nra. Qed.

Lemma mult_between (p f lo hi flo fhi : Q) :
  0 <= lo -> lo <= p <= hi -> 0 <= flo -> flo <= f <= fhi ->
  lo * flo <= p * f <= hi * fhi.
Proof. intros. nra. Qed.

Lemma scale_error (p c k e P : Q) :
  0 <= p <= P -> k - e <= c <= k + e ->
  k * p - P * e <= p * c <= k * p + P * e.
Proof. intros. nra. Qed.

(** *** [round(x, 2)] *)

Lemma round2_monotone (x y : Q) :
  x <= y -> round2 env x <= round2 env y.
Proof.
  intros Hxy. unfold round2. apply fl_monotone.
  assert (H : (round_half_even (x * 100) <= round_half_even (y * 100))%Z)
    by (apply round_half_even_monotone; lra).
  rewrite Zle_Qle in H. unfold Qdiv. change (/ 100) with (1 # 100). lra.
Qed.

Lemma round2_near (x : Q) :
  0 <= x <= 5000 ->
  x - (1 # 200) - (1 # 1000000000) <= round2 env x
  <= x + (1 # 200) + (1 # 1000000000).
Proof.
  intros Hx. unfold round2, Qdiv. change (/ 100) with (1 # 100).
  pose proof (round_half_even_near (x * 100)) as Hr.
  set (n := inject_Z (round_half_even (x * 100))) in *.
  pose proof (fl_accurate (n * (1 # 100)) ltac:(lra)). lra.
Qed.

(** *** The samples *)

Lemma uniform_volume_band (r : Q) :
  0 <= r < 1 ->
  (1000 <=
   int_of_float
     (fl env (inject_Z 1000 + fl env (inject_Z (10000 - 1000) * r)))
   <= 10000)%Z.
Proof.
  intros Hr.
  change (inject_Z (10000 - 1000)) with (inject_Z 9000).
  pose proof (fl_small_integer 0 ltac:(lia)) as H0.
  pose proof (fl_small_integer 9000 ltac:(lia)) as H9.
  pose proof (fl_small_integer 1000 ltac:(lia)) as H1.
  pose proof (fl_small_integer 10000 ltac:(lia)) as H10.
  change (inject_Z 0) with 0 in H0.
  change (inject_Z 9000) with 9000 in *.
  change (inject_Z 1000) with 1000 in *.
  change (inject_Z 10000) with 10000 in H10.
  pose proof (fl_monotone 0 (9000 * r) ltac:(lra)) as Ha.
  pose proof (fl_monotone (9000 * r) 9000 ltac:(lra)) as Hb.
  set (y := fl env (9000 * r)) in *.
  pose proof (fl_monotone 1000 (1000 + y) ltac:(lra)) as Hc.
  pose proof (fl_monotone (1000 + y) 10000 ltac:(lra)) as Hd.
  set (u := fl env (1000 + y)) in *.
  assert (Hu : 1000 <= u <= 10000) by lra.
  unfold int_of_float.
  assert (Hpos : Qle_bool 0 u = true) by (apply Qle_bool_iff; lra).
  rewrite Hpos. destruct Hu as [Hu1 Hu2].
  apply Qfloor_resp_le in Hu1, Hu2.
  change (Qfloor 1000) with 1000%Z in Hu1.
  change (Qfloor 10000) with 10000%Z in Hu2.
  lia.
Qed.

(** *** One day of the random walk *)

Lemma price_step (p r lo hi : Q) :
  1 # 4 <= lo -> lo <= p <= hi -> hi <= 4000 -> 0 <= r < 1 ->
  (97 # 100) * lo
  <= fl env (p * fl env (1 + fl env (fl env (r - (1 # 2))
                                     * fl env (3 # 100))))
  <= (103 # 100) * hi.
Proof.
  intros Hlo Hp Hhi Hr.
  pose proof (fl_accurate (r - (1 # 2)) ltac:(lra)) as Ha.
  pose proof (fl_accurate (3 # 100) ltac:(lra)) as Hc.
  set (a := fl env (r - (1 # 2))) in *.
  set (c := fl env (3 # 100)) in *.
  pose proof (mult_interval a c (51 # 100) (31 # 1000)
                ltac:(lra) ltac:(lra)) as Hac.
  set (ac := a * c) in *.
  pose proof (fl_accurate ac ltac:(lra)) as Hb.
  set (b := fl env ac) in *.
  pose proof (fl_accurate (1 + b) ltac:(lra)) as Hf.
  set (f := fl env (1 + b)) in *.
  pose proof (mult_between p f lo hi (983 # 1000) (1017 # 1000)
                ltac:(lra) Hp ltac:(lra) ltac:(lra)) as Hpf.
  set (pf := p * f) in *.
  assert (Hlo' : 0 <= lo * (983 # 1000)) by nra.
  assert (Hhi' : hi * (1017 # 1000) <= 4068) by nra.
  pose proof (fl_accurate pf ltac:(lra)) as Hp'.
  nra.
Qed.

Lemma qpow_bounds (k : nat) :
  (k <= 30)%nat ->
  1 # 4 <= qpow (97 # 100) k /\ 1000 * qpow (103 # 100) k <= 4000.
Proof.
  intros Hk.
  do 31 (destruct k as [|k]; [vm_compute; split; discriminate|]).
  lia.
Qed.

(** *** One candle *)

Lemma mock_candle_shape (dt : Z) (p u : Q) :
  1 # 4 <= p <= 4000 -> fl env p == p ->
  (1000 <= int_of_float u <= 10000)%Z ->
  mock_candle_ok env dt (mock_candle env dt p u).
Proof.
  intros Hp Hfix Hu. unfold mock_candle_ok, mock_candle.
  do 5 eexists. split; [reflexivity|].
  pose proof (fl_small_integer 1 ltac:(lia)) as H1.
  change (inject_Z 1) with 1 in H1.
  pose proof (fl_monotone (98 # 100) (99 # 100) ltac:(lra)) as H98.
  pose proof (fl_monotone (99 # 100) 1 ltac:(lra)) as H99.
  pose proof (fl_monotone 1 (101 # 100) ltac:(lra)) as H101.
  pose proof (fl_accurate (98 # 100) ltac:(lra)) as A98.
  pose proof (fl_accurate (99 # 100) ltac:(lra)) as A99.
  pose proof (fl_accurate (101 # 100) ltac:(lra)) as A101.
  set (c98 := fl env (98 # 100)) in *.
  set (c99 := fl env (99 # 100)) in *.
  set (c101 := fl env (101 # 100)) in *.
  pose proof (scale_error p c98 (98 # 100) (1 # 1000000000) 4000
                ltac:(lra) ltac:(lra)) as S98.
  pose proof (scale_error p c99 (99 # 100) (1 # 1000000000) 4000
                ltac:(lra) ltac:(lra)) as S99.
  pose proof (scale_error p c101 (101 # 100) (1 # 1000000000) 4000
                ltac:(lra) ltac:(lra)) as S101.
  assert (O1 : p * c98 <= p * c99) by nra.
  assert (O2 : p * c99 <= p) by nra.
  assert (O3 : p <= p * c101) by nra.
  set (x98 := p * c98) in *.
  set (x99 := p * c99) in *.
  set (x101 := p * c101) in *.
  pose proof (fl_monotone x98 x99 O1) as M1.
  pose proof (fl_monotone x99 p O2) as M2.
  pose proof (fl_monotone p x101 O3) as M3.
  pose proof (fl_accurate x98 ltac:(lra)) as B98.
  pose proof (fl_accurate x99 ltac:(lra)) as B99.
  pose proof (fl_accurate x101 ltac:(lra)) as B101.
  set (y98 := fl env x98) in *.
  set (y99 := fl env x99) in *.
  set (y101 := fl env x101) in *.
  pose proof (round2_monotone y98 y99 M1) as R1.
  pose proof (round2_monotone y99 p ltac:(lra)) as R2.
  pose proof (round2_monotone p y101 ltac:(lra)) as R3.
  pose proof (round2_near y98 ltac:(lra)) as N98.
  pose proof (round2_near y99 ltac:(lra)) as N99.
  pose proof (round2_near y101 ltac:(lra)) as N101.
  pose proof (round2_near p ltac:(lra)) as Np.
  set (low := round2 env y98) in *.
  set (open := round2 env y99) in *.
  set (high := round2 env y101) in *.
  set (close := round2 env p) in *.
  split; [lra|].
  split; [apply Qabs_Qle_condition; lra|].
  split; [apply Qabs_Qle_condition; lra|].
  split; [apply Qabs_Qle_condition; lra|].
  exact Hu.
Qed.

(** *** The loop *)

Lemma mock_loop_candles (range : list nat) :
  forall (k : nat) (p : Q) (data : list pyval) (st : State),
    (k + length range <= 30)%nat ->
    qpow (97 # 100) k <= p <= 1000 * qpow (103 # 100) k ->
    fl env p == p ->
    exists out,
      fst (mock_loop range (now env) p data env st) = Ok (data ++ out)%list
      /\ Forall2 (mock_candle_ok env)
           (map (fun i : nat => (now env - (30 - Z.of_nat i))%Z) range) out.
Proof.
  induction range as [|i range IH]; intros k p data st Hk Hp Hfix.
  - exists []. split; [simpl; now rewrite app_nil_r | constructor].
  - simpl in Hk. cbn [mock_loop]. unfold uniform, random. run.
    set (r := random_stream env (rng st)).
    set (p' := fl env (p * fl env (1 + fl env (fl env (r - (1 # 2))
                                               * fl env (3 # 100))))).
    destruct (qpow_bounds k ltac:(lia)) as [Hlo Hhi].
    destruct (qpow_bounds (S k) ltac:(lia)) as [Hlo' Hhi'].
    pose proof (price_step p r (qpow (97 # 100) k)
                  (1000 * qpow (103 # 100) k)
                  Hlo Hp Hhi (random_unit (rng st))) as Hstep.
    fold p' in Hstep. cbn [qpow] in Hlo', Hhi'.
    assert (Hp' : qpow (97 # 100) (S k) <= p'
                  <= 1000 * qpow (103 # 100) (S k))
      by (cbn [qpow]; lra).
    match goal with
    | |- context [mock_loop range (now env) p' ?d env ?s] =>
        destruct (IH (S k) p' d s ltac:(lia) Hp'
                    (fl_idempotent _)) as (out & Hout & Hall)
    end.
    eexists (_ :: out). split.
    + rewrite Hout. now rewrite <- app_assoc.
    + cbn [map]. constructor; [|exact Hall].
      apply mock_candle_shape.
      * cbn [qpow] in Hp'. lra.
      * apply fl_idempotent.
      * apply uniform_volume_band, random_unit.
Qed.

Lemma days_sorted (n s : nat) :
  StronglySorted Z.lt
    (map (fun i : nat => (now env - (30 - Z.of_nat i))%Z) (seq s n)).
Proof.
  revert s. induction n as [|n IH]; intros s; cbn [seq map]; constructor.
  - apply IH.
  - apply List.Forall_forall. intros d Hd.
    apply in_map_iff in Hd as (j & <- & Hj). apply in_seq in Hj. lia.
Qed.

(** C9.  The mock generator returns exactly 30 candles, the i-th dated
    30 - i days before today, so in ascending order of date; in each
    candle low <= open <= close <= high, the open, high and low are
    0.99, 1.01 and 0.98 times the close up to 0.011, and the volume
    lies between 1000 and 10000. *)
Theorem mock_history_shape (base_price : Q) (st : State) :
  1 <= base_price <= 1000 ->
  fl env base_price == base_price ->
  exists candles,
    fst (generate_mock_history base_price env st) = Ok (PList candles)
    /\ length candles = 30%nat
    /\ Forall2 (mock_candle_ok env) (mock_days env) candles
    /\ StronglySorted Z.lt (mock_days env).
Proof.
  intros Hbase Hfix.
  destruct (mock_loop_candles (seq 0 30) 0 base_price [] st)
    as (out & Hout & Hall);
    [simpl; lia | cbn [qpow]; lra | exact Hfix |].
  exists out. unfold generate_mock_history, bind, ask, ret.
  destruct (mock_loop (seq 0 30) (now env) base_price [] env st)
    as [[o|e] s]; simpl in Hout; [|discriminate].
  injection Hout as ->. simpl.
  split; [reflexivity|]. split; [|split].
  - apply Forall2_length in Hall. rewrite <- Hall.
    now rewrite length_map, length_seq.
  - exact Hall.
  - apply days_sorted.
Qed.

End MockHistory.

(** *** The example environment meets the assumptions *)

Lemma example_fl_monotone (user password : option string) (td : outcome TD)
    (response : outcome Response) (x y : Q) :
  (x <= y)%Q ->
  (fl (Example.env user password td response) x
   <= fl (Example.env user password td response) y)%Q.
Proof. simpl. now rewrite !Qred_correct. Qed.

Lemma example_fl_accurate (user password : option string) (td : outcome TD)
    (response : outcome Response) (x : Q) :
  (- (100000) <= x <= 100000)%Q ->
  (x - (1 # 1000000000) <= fl (Example.env user password td response) x
   <= x + (1 # 1000000000))%Q.
Proof. intros _. simpl. rewrite Qred_correct. lra. Qed.

Lemma example_fl_integer (user password : option string) (td : outcome TD)
    (response : outcome Response) (z : Z) :
  (Z.abs z <= 2 ^ 53)%Z ->
  (fl (Example.env user password td response) (inject_Z z) == inject_Z z)%Q.
Proof. intros _. simpl. apply Qred_correct. Qed.

Lemma example_fl_idempotent (user password : option string) (td : outcome TD)
    (response : outcome Response) (x : Q) :
  (fl (Example.env user password td response)
      (fl (Example.env user password td response) x)
   == fl (Example.env user password td response) x)%Q.
Proof. simpl. apply Qred_correct. Qed.

Lemma example_random_unit (user password : option string) (td : outcome TD)
    (response : outcome Response) (n : nat) :
  (0 <= random_stream (Example.env user password td response) n < 1)%Q.
Proof.
  simpl. unfold Example.samples, Qdiv. change (/ 100)%Q with (1 # 100)%Q.
  assert (H : (0 <= Z.of_nat (n * 37 mod 100) < 100)%Z).
  { pose proof (Nat.mod_upper_bound (n * 37) 100 ltac:(lia)). lia. }
  destruct H as [H0 H1]. rewrite Zle_Qle in H0. rewrite Zlt_Qlt in H1.
  change (inject_Z 0) with 0%Q in H0. change (inject_Z 100) with 100%Q in H1.
  lra.
Qed.

(** C9 in the example environment, from the default base price. *)
Lemma mock_history_shape_witness :
  exists candles,
    fst (generate_mock_history default_base_price
           (Example.connected Example.td_cached Example.timeout)
           initial_state) = Ok (PList candles)
    /\ length candles = 30%nat
    /\ Forall2
         (mock_candle_ok (Example.connected Example.td_cached Example.timeout))
         (mock_days (Example.connected Example.td_cached Example.timeout))
         candles
    /\ StronglySorted Z.lt
         (mock_days (Example.connected Example.td_cached Example.timeout)).
Proof.
  apply (mock_history_shape
           (Example.connected Example.td_cached Example.timeout)
           (example_fl_monotone _ _ _ _)
           (example_fl_accurate _ _ _ _)
           (example_fl_integer _ _ _ _)
           (example_fl_idempotent _ _ _ _)
           (example_random_unit _ _ _ _)
           default_base_price initial_state).
  - split; discriminate.
  - reflexivity.
Defined.

(* ===================================================================== *)
(** * Further properties of the handlers *)
(* ===================================================================== *)

(** ** Router *)

(** X1.  A symbol is routed to the vendor exactly when it ends with
    ".NS" or ".BO" or is one of the four index names "^NSEI", "^BSESN",
    "NIFTY_50", "NIFTY_BANK"; every other symbol is routed to the mock. *)
Theorem routing_by_suffix_or_index_name (s : string) :
  let vendor :=
    (exists p, s = p ++ ".NS") \/ (exists p, s = p ++ ".BO")
    \/ s = "^NSEI" \/ s = "^BSESN" \/ s = "NIFTY_50" \/ s = "NIFTY_BANK" in
  (is_indian_stock s = true <-> vendor)
  /\ (decision s = VENDOR <-> vendor)
  /\ (decision s = MOCK <-> ~ vendor).
Proof.
  intros vendor.
  assert (H : is_indian_stock s = true <-> vendor).
  { subst vendor. unfold is_indian_stock.
    rewrite !orb_true_iff, !endswith_spec, in_INDEX_MAP_spec.
    split.
    - intros [[H | H] | [a Ha]]; [tauto | tauto |].
      apply INDEX_MAP_keys in Ha. tauto.
    - intros [H | [H | H]]; [tauto | tauto |].
      right. destruct H as [-> | [-> | [-> | ->]]];
        vm_compute; eauto. }
  split; [exact H|]. unfold decision.
  destruct (is_indian_stock s).
  - assert (Hv : vendor) by now apply H.
    split; split; intros; try discriminate; tauto.
  - assert (Hn : ~ vendor) by (intros Hv; apply H in Hv; discriminate).
    split; split; intros; try discriminate; tauto.
Qed.

Lemma no_dot_app (p s : string) :
  no_dot (p ++ s) = no_dot p && no_dot s.
Proof.
  induction p as [|c p IH]; [reflexivity|].
  rewrite append_cons. simpl. rewrite IH. now rewrite andb_assoc.
Qed.

Lemma no_dot_not_suffixed (p suffix : string) :
  suffix = ".NS" \/ suffix = ".BO" ->
  no_dot p = true -> PyStr.endswith p suffix = false.
Proof.
  intros Hsuf Hp.
  destruct (PyStr.endswith p suffix) eqn:E; [|reflexivity].
  apply endswith_spec in E as [q ->]. rewrite no_dot_app in Hp.
  apply andb_true_iff in Hp as [_ Hp].
  destruct Hsuf as [-> | ->]; discriminate Hp.
Qed.

Lemma replace_from_dot_free (old o p : string) :
  old = String "."%char o -> no_dot p = true ->
  PyStr.replace_from 0 old "" p = p.
Proof.
  intros Ho Hp.
  pose proof (replace_from_no_dot old p "" o Ho Hp) as H.
  now rewrite !append_empty_r in H.
Qed.

(** X2.  For a stem without a dot, the stem followed by ".NS" or ".BO" is
    routed to the vendor with the stem as canonical symbol; the stem
    itself, unless it is an index name, is routed to the mock and is its
    own canonical symbol, so a canonical symbol handed back to the
    service is no longer served by the vendor. *)
Theorem route_dot_free_stem (p : string) :
  no_dot p = true ->
  route (p ++ ".NS") = (VENDOR, p)
  /\ route (p ++ ".BO") = (VENDOR, p)
  /\ (INDEX_MAP !! p = None -> route p = (MOCK, p)).
Proof.
  intros Hp. unfold route, decision, is_indian_stock.
  assert (Hns : PyStr.endswith (p ++ ".NS") ".NS" = true)
    by (apply endswith_spec; eauto).
  assert (Hbo : PyStr.endswith (p ++ ".BO") ".BO" = true)
    by (apply endswith_spec; eauto).
  split; [|split].
  - rewrite Hns. simpl.
    now rewrite (proj1 (get_clean_symbol_plain p ".NS" (or_introl eq_refl) Hp)).
  - rewrite Hbo, orb_true_r. simpl.
    now rewrite (proj1 (get_clean_symbol_plain p ".BO" (or_intror eq_refl) Hp)).
  - intros Hnone.
    rewrite (no_dot_not_suffixed p ".NS" (or_introl eq_refl) Hp),
      (no_dot_not_suffixed p ".BO" (or_intror eq_refl) Hp).
    unfold in_INDEX_MAP, get_clean_symbol. rewrite Hnone. simpl.
    unfold PyStr.replace.
    now rewrite !(replace_from_dot_free _ _ p eq_refl Hp).
Qed.

(** X2 on the stem "RELIANCE". *)
Lemma route_dot_free_stem_witness :
  route "RELIANCE.NS" = (VENDOR, "RELIANCE")
  /\ route "RELIANCE.BO" = (VENDOR, "RELIANCE")
  /\ route "RELIANCE" = (MOCK, "RELIANCE").
Proof.
  destruct (route_dot_free_stem "RELIANCE" eq_refl) as (Hns & Hbo & Hstem).
  split; [exact Hns|]. split; [exact Hbo|]. exact (Hstem eq_refl).
Defined.

(** X3.  An index name is routed to the vendor with its alias as
    canonical symbol, and the alias itself is routed to the mock
    unchanged: canonical index names are not index names. *)
Theorem index_alias_not_routed_back (s alias : string) :
  INDEX_MAP !! s = Some alias ->
  route s = (VENDOR, alias) /\ route alias = (MOCK, alias).
Proof.
  intros H. pose proof (INDEX_MAP_keys s alias H) as Hs.
  destruct Hs as [-> | [-> | [-> | ->]]];
    vm_compute in H; injection H as <-; split; vm_compute; reflexivity.
Qed.

(** X3 on "NIFTY_BANK". *)
Lemma index_alias_not_routed_back_witness :
  route "NIFTY_BANK" = (VENDOR, "BANKNIFTY")
  /\ route "BANKNIFTY" = (MOCK, "BANKNIFTY").
Proof.
  exact (index_alias_not_routed_back "NIFTY_BANK" "BANKNIFTY" eq_refl).
Defined.

(** ** [/quote] *)

(** The state [get_quote] leaves: the session is kept, the clock moves by
    the one sleep of a wait, and the only vendor call is the
    subscription. *)
Lemma get_quote_state (symbol : string) (env : Env) (st : State) :
  let st' := snd (get_quote symbol env st) in
  td_app st' = td_app st
  /\ clock st' = (if quote_waits symbol st then S (clock st) else clock st)
  /\ vendor_calls (trace st')
     = (vendor_calls (trace st) ++ quote_calls symbol st)%list.
Proof.
  unfold quote_waits, quote_calls. cbv zeta.
  destruct (is_indian_stock symbol) eqn:Hr.
  - rewrite (get_quote_vendor symbol env st Hr). cbv zeta.
    destruct (td_app st) as [td|] eqn:Htd.
    + destruct (start_live_data td [get_clean_symbol symbol])
        as [[|req_id rest]|e];
        [| destruct (live_data td (clock st) !! req_id);
           [| destruct (live_data td (S (clock st)) !! req_id)] |];
        unfold after; cbn [snd td_app clock trace];
        rewrite vendor_calls_app, ?Nat.add_0_r, ?Nat.add_1_r;
        repeat split; assumption || reflexivity.
    + cbn [snd]. rewrite Htd, app_nil_r. repeat split.
  - destruct (get_quote_mock symbol env st Hr) as (p & c & cp & ->).
    cbn [snd td_app clock trace]. rewrite app_nil_r. repeat split.
Qed.

(** X4.  [/quote] subscribes at most once, with the canonical symbol alone
    in the list, and only for a symbol routed to the vendor while a
    session exists; it makes no other vendor call, and it leaves the
    session handle as it found it. *)
Theorem quote_subscribes_once_with_canonical_symbol
    (symbol : string) (env : Env) (st : State) :
  let st' := snd (get_quote symbol env st) in
  vendor_calls (trace st')
  = (vendor_calls (trace st)
     ++ if is_indian_stock symbol then
          match td_app st with
          | Some _ => [EvStartLiveData [get_clean_symbol symbol]]
          | None => []
          end
        else [])%list
  /\ td_app st' = td_app st.
Proof.
  destruct (get_quote_state symbol env st) as (Htd & _ & Hcalls).
  split; [exact Hcalls | exact Htd].
Qed.

(** X5.  [/quote] sleeps at most once, and only when it has a request
    identifier whose tick is not cached on arrival; a tick cached on
    arrival is served without any wait. *)
Theorem quote_waits_only_for_missing_tick
    (symbol : string) (env : Env) (st : State) :
  let answer := get_quote symbol env st in
  clock (snd answer)
  = (if quote_waits symbol st then S (clock st) else clock st)
  /\ (forall td req_id rest tick,
        is_indian_stock symbol = true ->
        td_app st = Some td ->
        start_live_data td [get_clean_symbol symbol] = Ok (req_id :: rest) ->
        live_data td (clock st) !! req_id = Some tick ->
        quote_waits symbol st = false
        /\ fst answer = Ok (quote_of_tick symbol tick)).
Proof.
  cbv zeta. split.
  - apply (get_quote_state symbol env st).
  - intros td req_id rest tick Hr Htd Hstart Htick. split.
    + unfold quote_waits. now rewrite Hr, Htd, Hstart, Htick.
    + rewrite (get_quote_vendor symbol env st Hr). cbv zeta.
      now rewrite Htd, Hstart, Htick.
Qed.

(** X5 on the examples: a cached tick is served at once, a late one after
    the one sleep. *)
Lemma quote_waits_only_for_missing_tick_witness :
  clock (snd (get_quote "TCS.NS"
                (Example.connected Example.td_cached Example.timeout)
                (Example.state_with Example.td_cached))) = 0%nat
  /\ fst (get_quote "TCS.NS"
            (Example.connected Example.td_cached Example.timeout)
            (Example.state_with Example.td_cached))
     = Ok (quote_of_tick "TCS.NS" Example.tick)
  /\ clock (snd (get_quote "TCS.NS"
                   (Example.connected Example.td_late Example.timeout)
                   (Example.state_with Example.td_late))) = 1%nat.
Proof.
  destruct (quote_waits_only_for_missing_tick "TCS.NS"
              (Example.connected Example.td_cached Example.timeout)
              (Example.state_with Example.td_cached)) as (Hclock & Hcached).
  split; [exact Hclock|].
  split;
    [exact (proj2 (Hcached Example.td_cached 7 [] Example.tick
                     eq_refl eq_refl eq_refl eq_refl))|].
  exact (proj1 (quote_waits_only_for_missing_tick "TCS.NS"
                  (Example.connected Example.td_late Example.timeout)
                  (Example.state_with Example.td_late))).
Defined.

(** X6.  In a response built from a tick the price, change, percentage
    change, volume, day high and day low are the tick's [ltp], [change],
    [change_perc], [volume], [day_high] and [day_low], each 0 when the
    tick lacks the attribute; the response has no [status] and no [error]
    field. *)
Theorem quote_fields_from_tick
    (symbol : string) (env : Env) (st : State) (tick : Tick) :
  quote_tick symbol st = Some tick ->
  let or_zero name :=
    match tick !! name with Some v => v | None => PInt 0 end in
  exists resp,
    fst (get_quote symbol env st) = Ok resp
    /\ field resp "price" = Some (or_zero "ltp")
    /\ field resp "change" = Some (or_zero "change")
    /\ field resp "change_percent" = Some (or_zero "change_perc")
    /\ field resp "volume" = Some (or_zero "volume")
    /\ field resp "high" = Some (or_zero "day_high")
    /\ field resp "low" = Some (or_zero "day_low")
    /\ field resp "status" = None
    /\ field resp "error" = None.
Proof.
  intros Htick or_zero.
  destruct (get_quote_answer symbol env st) as (resp & Hresp & Hshape).
  rewrite Htick in Hshape. subst resp.
  exists (quote_of_tick symbol tick). split; [exact Hresp|].
  subst or_zero. unfold quote_of_tick, getattr, default. cbn.
  repeat split;
    match goal with
    | |- context [tick !! ?k] => destruct (tick !! k); reflexivity
    | _ => reflexivity
    end.
Qed.

(** X6 on the example tick, which has a last price and a volume but no
    change and no day range. *)
Lemma quote_fields_from_tick_witness :
  exists resp,
    fst (get_quote "TCS.NS"
           (Example.connected Example.td_late Example.timeout)
           (Example.state_with Example.td_late)) = Ok resp
    /\ field resp "price" = Some (PFloat (24505 # 10))
    /\ field resp "change" = Some (PInt 0)
    /\ field resp "change_percent" = Some (PInt 0)
    /\ field resp "volume" = Some (PInt 120000)
    /\ field resp "high" = Some (PInt 0)
    /\ field resp "low" = Some (PInt 0)
    /\ field resp "status" = None
    /\ field resp "error" = None.
Proof.
  exact (quote_fields_from_tick "TCS.NS"
           (Example.connected Example.td_late Example.timeout)
           (Example.state_with Example.td_late) Example.tick eq_refl).
Defined.

(** X7.  Every [/quote] response echoes the symbol as given and has a
    price; it is either a data response, with [currency] and [source] and
    neither [status] nor [error], or a degraded one, with price 0, a
    [status] or an [error], and neither [currency] nor [source]. *)
Theorem quote_response_kinds (symbol : string) (env : Env) (st : State) :
  exists resp,
    fst (get_quote symbol env st) = Ok resp
    /\ field resp "symbol" = Some (PStr symbol)
    /\ is_Some (field resp "price")
    /\ ((is_Some (field resp "currency") /\ is_Some (field resp "source")
         /\ field resp "status" = None /\ field resp "error" = None)
        \/ (field resp "price" = Some (PInt 0)
            /\ (is_Some (field resp "status") \/ is_Some (field resp "error"))
            /\ field resp "currency" = None /\ field resp "source" = None)).
Proof.
  assert (Hdegraded : forall key text,
            key = "status" \/ key = "error" ->
            let resp := degraded_quote symbol key text in
            field resp "symbol" = Some (PStr symbol)
            /\ is_Some (field resp "price")
            /\ ((is_Some (field resp "currency")
                 /\ is_Some (field resp "source")
                 /\ field resp "status" = None /\ field resp "error" = None)
                \/ (field resp "price" = Some (PInt 0)
                    /\ (is_Some (field resp "status")
                        \/ is_Some (field resp "error"))
                    /\ field resp "currency" = None
                    /\ field resp "source" = None))).
  { intros key text [-> | ->]; cbn;
      (split; [reflexivity|]); (split; [eauto|]);
      right; repeat split; eauto. }
  assert (Hdata : forall tick,
            let resp := quote_of_tick symbol tick in
            field resp "symbol" = Some (PStr symbol)
            /\ is_Some (field resp "price")
            /\ ((is_Some (field resp "currency")
                 /\ is_Some (field resp "source")
                 /\ field resp "status" = None /\ field resp "error" = None)
                \/ (field resp "price" = Some (PInt 0)
                    /\ (is_Some (field resp "status")
                        \/ is_Some (field resp "error"))
                    /\ field resp "currency" = None
                    /\ field resp "source" = None))).
  { intros tick. cbn. split; [reflexivity|]. split; [eauto|].
    left. repeat split; eauto. }
  destruct (is_indian_stock symbol) eqn:Hr.
  - rewrite (get_quote_vendor symbol env st Hr). cbv zeta.
    destruct (td_app st) as [td|];
      [|eexists; split; [reflexivity | apply Hdegraded; eauto]].
    destruct (start_live_data td [get_clean_symbol symbol])
      as [[|req_id rest]|e];
      [eexists; split; [reflexivity | apply Hdegraded; eauto] |
       | eexists; split; [reflexivity | apply Hdegraded; eauto]].
    destruct (live_data td (clock st) !! req_id) as [tick|];
      [eexists; split; [reflexivity | apply Hdata]|].
    destruct (live_data td (S (clock st)) !! req_id) as [tick|];
      eexists; (split; [reflexivity|]); [apply Hdata | apply Hdegraded; eauto].
  - destruct (get_quote_mock symbol env st Hr) as (p & c & cp & ->).
    eexists. split; [reflexivity|]. cbn.
    split; [reflexivity|]. split; [eauto|].
    left. repeat split; eauto.
Qed.

Section MockQuote.

Local Open Scope Q_scope.

Variable env : Env.

Hypothesis fl_monotone : forall x y : Q, x <= y -> fl env x <= fl env y.
Hypothesis fl_integer :
  forall z : Z, (Z.abs z <= 2 ^ 53)%Z -> fl env (inject_Z z) == inject_Z z.
Hypothesis random_unit : forall n : nat, 0 <= random_stream env n < 1.

(** [random.uniform(a, b)] stays between its integer bounds. *)
Lemma uniform_between (a b : Z) (r : Q) :
  (a <= b)%Z ->
  (Z.abs a <= 2 ^ 53)%Z -> (Z.abs b <= 2 ^ 53)%Z ->
  (b - a <= 2 ^ 53)%Z ->
  0 <= r < 1 ->
  inject_Z a <= fl env (inject_Z a + fl env (inject_Z (b - a) * r))
  <= inject_Z b.
Proof.
  intros Hab Ha Hb Hd Hr.
  pose proof (fl_integer 0 ltac:(lia)) as F0.
  pose proof (fl_integer (b - a) ltac:(lia)) as Fd.
  pose proof (fl_integer a Ha) as Fa.
  pose proof (fl_integer b Hb) as Fb.
  change (inject_Z 0) with 0 in F0.
  assert (Hd0 : 0 <= inject_Z (b - a)).
  { change 0 with (inject_Z 0). rewrite <- Zle_Qle. lia. }
  assert (Hsum : inject_Z a + inject_Z (b - a) == inject_Z b).
  { rewrite <- inject_Z_plus. now replace (a + (b - a))%Z with b by lia. }
  set (d := inject_Z (b - a)) in *.
  assert (Hdr : 0 <= d * r <= d) by nra.
  pose proof (fl_monotone 0 (d * r) ltac:(lra)) as M1.
  pose proof (fl_monotone (d * r) d ltac:(lra)) as M2.
  set (y := fl env (d * r)) in *.
  pose proof (fl_monotone (inject_Z a) (inject_Z a + y) ltac:(lra)) as M3.
  pose proof (fl_monotone (inject_Z a + y) (inject_Z b) ltac:(lra)) as M4.
  lra.
Qed.

(** X8.  For a symbol routed to the mock [/quote] draws three samples and
    answers a price between 100 and 3000, a change between -5 and 5 and a
    percentage change between -1 and 1, in "USD" from the source
    "Mock (US)"; it calls nothing, prints nothing and does not sleep. *)
Theorem quote_mock_bands (symbol : string) (st : State) :
  is_indian_stock symbol = false ->
  exists price change change_percent,
    get_quote symbol env st =
    (Ok (PDict [ ("symbol", PStr symbol);
                 ("price", PFloat price);
                 ("change", PFloat change);
                 ("change_percent", PFloat change_percent);
                 ("currency", PStr "USD");
                 ("source", PStr "Mock (US)") ]),
     {| td_app := td_app st; rng := rng st + 3; clock := clock st;
        trace := trace st |})
    /\ 100 <= price <= 3000
    /\ - (5) <= change <= 5
    /\ - (1) <= change_percent <= 1.
Proof.
  intros Hm. unfold get_quote. rewrite Hm.
  unfold uniform, random. run.
  do 3 eexists. split.
  - replace (rng st + 3)%nat with (S (S (S (rng st)))) by lia. reflexivity.
  - split; [|split].
    + apply (uniform_between 100 3000); try lia. apply random_unit.
    + apply (uniform_between (-5) 5); try lia. apply random_unit.
    + apply (uniform_between (-1) 1); try lia. apply random_unit.
Qed.

End MockQuote.

(** X8 in the example environment. *)
Lemma quote_mock_bands_witness :
  exists price change change_percent,
    get_quote "AAPL" (Example.connected Example.td_cached Example.timeout)
      (Example.state_with Example.td_cached) =
    (Ok (PDict [ ("symbol", PStr "AAPL");
                 ("price", PFloat price);
                 ("change", PFloat change);
                 ("change_percent", PFloat change_percent);
                 ("currency", PStr "USD");
                 ("source", PStr "Mock (US)") ]),
     {| td_app := Some Example.td_cached; rng := 3; clock := 0;
        trace := [] |})
    /\ (100 <= price <= 3000)%Q
    /\ (- (5) <= change <= 5)%Q
    /\ (- (1) <= change_percent <= 1)%Q.
Proof.
  exact (quote_mock_bands
           (Example.connected Example.td_cached Example.timeout)
           (example_fl_monotone _ _ _ _)
           (example_fl_integer _ _ _ _)
           (example_random_unit _ _ _ _)
           "AAPL" (Example.state_with Example.td_cached) eq_refl).
Defined.

(** ** [/history] *)

(** X9.  When the vendor answers 200 with a JSON object that has no
    "Records" entry, or an empty one, [/history] answers the empty list:
    no candle is made up and no sample is drawn. *)
Theorem history_without_records_is_empty
    (symbol period : string) (env : Env) (st : State)
    (response : Response) (items : list (string * pyval)) :
  is_indian_stock symbol = true ->
  history_request env symbol period = Ok response ->
  status_code response = 200 ->
  json response = Ok (PDict items) ->
  assoc "Records" items = None \/ assoc "Records" items = Some (PList []) ->
  fst (get_history symbol period env st) = Ok (PList [])
  /\ rng (snd (get_history symbol period env st)) = rng st.
Proof.
  intros Hv Hreq Hstatus Hjson Hrec.
  rewrite (get_history_vendor symbol period env st Hv). cbv zeta.
  rewrite Hreq, Hstatus. cbn -[generate_mock_history].
  assert (Hparse : parse_history response = Ok (PList [])).
  { unfold parse_history. rewrite Hjson. cbn.
    destruct Hrec as [-> | ->]; reflexivity. }
  rewrite Hparse. split; reflexivity.
Qed.

(** X9 on a vendor that answers 200 with the empty object. *)
Lemma history_without_records_is_empty_witness :
  fst (get_history "TCS.NS" "1mo"
         (Example.connected Example.td_cached (Example.ok_json (PDict [])))
         (Example.state_with Example.td_cached)) = Ok (PList [])
  /\ rng (snd (get_history "TCS.NS" "1mo"
                 (Example.connected Example.td_cached
                    (Example.ok_json (PDict [])))
                 (Example.state_with Example.td_cached))) = 0%nat.
Proof.
  exact (history_without_records_is_empty "TCS.NS" "1mo"
           (Example.connected Example.td_cached (Example.ok_json (PDict [])))
           (Example.state_with Example.td_cached)
           {| status_code := 200; json := Ok (PDict []) |} []
           eq_refl eq_refl eq_refl eq_refl (or_introl eq_refl)).
Defined.

(** A row without a length stops the loop, wherever it stands. *)
Lemma history_rows_unsized (row : pyval) (e0 : exn) (rows : list pyval) :
  In row rows -> py_len row = Raise e0 ->
  forall chart_data, exists e, history_rows rows chart_data = Raise e.
Proof.
  intros Hin Hlen. induction rows as [|r rows IH]; [destruct Hin|].
  intros chart_data. cbn [history_rows].
  destruct Hin as [-> | Hin].
  - rewrite Hlen. cbn [obind]. eauto.
  - specialize (IH Hin).
    destruct (py_len r) as [n|e]; cbn [obind]; [|eauto].
    destruct (5 <=? n)%nat; [|apply IH].
    destruct (py_getitem r 0); cbn [obind]; [|eauto].
    destruct (py_getitem r 1); cbn [obind]; [|eauto].
    destruct (py_getitem r 2); cbn [obind]; [|eauto].
    destruct (py_getitem r 3); cbn [obind]; [|eauto].
    destruct (py_getitem r 4); cbn [obind]; [|eauto].
    destruct (5 <? n)%nat;
      [destruct (py_getitem r 5); cbn [obind]; [|eauto]|cbn [obind]];
      apply IH.
Qed.

(** X10.  One row that is [null], a boolean or a number spoils the whole
    payload: although the status is 200, [/history] drops every row, the
    well-formed ones too, and answers the 30 mock candles a symbol routed
    to the mock gets. *)
Theorem history_unsized_row_gives_mock
    (symbol period : string) (env : Env) (st : State)
    (response : Response) (items : list (string * pyval))
    (rows : list pyval) (row : pyval) :
  is_indian_stock symbol = true ->
  history_request env symbol period = Ok response ->
  status_code response = 200 ->
  json response = Ok (PDict items) ->
  assoc "Records" items = Some (PList rows) ->
  In row rows ->
  (row = PNone \/ (exists b, row = PBool b) \/ (exists n, row = PInt n)
   \/ (exists q, row = PFloat q)) ->
  (exists candles,
     fst (get_history symbol period env st) = Ok (PList candles)
     /\ length candles = 30%nat)
  /\ forall other,
       is_indian_stock other = false ->
       fst (get_history symbol period env st)
       = fst (get_history other period env st).
Proof.
  intros Hv Hreq Hstatus Hjson Hrec Hin Hrow.
  apply (history_failure_mock symbol period env st Hv).
  unfold history_fails. rewrite Hreq. right.
  assert (Hlen : exists e0, py_len row = Raise e0).
  { destruct Hrow as [-> | [[b ->] | [[n ->] | [q ->]]]]; cbn; eauto. }
  destruct Hlen as [e0 Hlen].
  destruct (history_rows_unsized row e0 rows Hin Hlen []) as [e He].
  exists e. unfold parse_history. rewrite Hjson. cbn. rewrite Hrec. cbn.
  now rewrite He.
Qed.

(** X10 on a payload whose second row is [null]. *)
Lemma history_unsized_row_gives_mock_witness :
  fst (get_history "TCS.NS" "1mo"
         (Example.connected Example.td_cached
            (Example.ok_json Example.spoiled_records))
         (Example.state_with Example.td_cached))
  = fst (get_history "AAPL" "1mo"
           (Example.connected Example.td_cached
              (Example.ok_json Example.spoiled_records))
           (Example.state_with Example.td_cached)).
Proof.
  refine (proj2 (history_unsized_row_gives_mock "TCS.NS" "1mo"
                   (Example.connected Example.td_cached
                      (Example.ok_json Example.spoiled_records))
                   (Example.state_with Example.td_cached)
                   {| status_code := 200;
                      json := Ok Example.spoiled_records |}
                   _ _ PNone eq_refl eq_refl eq_refl eq_refl eq_refl
                   _ (or_introl eq_refl)) "AAPL" eq_refl).
  right. left. reflexivity.
Defined.

(** The state [get_history] leaves: session and clock are kept, and 60
    samples are drawn exactly when the mock series is served. *)
Lemma get_history_state (symbol period : string) (env : Env) (st : State) :
  let st' := snd (get_history symbol period env st) in
  td_app st' = td_app st /\ clock st' = clock st
  /\ (rng st' = rng st \/ rng st' = (rng st + 60)%nat).
Proof.
  cbv zeta. destruct (is_indian_stock symbol) eqn:Hr.
  - rewrite (get_history_vendor symbol period env st Hr). cbv zeta.
    destruct (history_request env symbol period) as [response|e];
      [destruct (status_code response =? 200);
       [destruct (parse_history response)|]|];
      try mock_total; unfold after; cbn [snd td_app clock rng];
      rewrite ?Nat.add_0_r; auto.
  - rewrite (get_history_mock symbol period env st Hr).
    mock_total. cbn [snd td_app clock rng]. auto.
Qed.

(** The state [get_fundamentals] leaves: only the trace grows, by the one
    request and what is printed after it. *)
Lemma get_fundamentals_state (symbol : string) (env : Env) (st : State) :
  let st' := snd (get_fundamentals symbol env st) in
  td_app st' = td_app st /\ clock st' = clock st /\ rng st' = rng st
  /\ exists rest,
       vendor_calls rest = []
       /\ trace st'
          = (trace st ++
             if is_indian_stock symbol
             then EvGet (TD_FUNDAMENTAL_URL ++ "/company_info")
                    (fundamentals_params env symbol) 3 :: rest
             else [])%list.
Proof.
  cbv zeta. destruct (is_indian_stock symbol) eqn:Hr.
  - rewrite (get_fundamentals_vendor symbol env st Hr). cbv zeta.
    destruct (fundamentals_request env symbol) as [response|e];
      [destruct (status_code response =? 200);
       [destruct (obind (json response) _)|]|];
      unfold after; cbn [snd td_app clock rng trace];
      rewrite ?Nat.add_0_r; repeat split;
      (exists [] + eexists [_]); (split; [|reflexivity]); reflexivity.
  - rewrite (get_fundamentals_mock symbol env st Hr).
    cbn [snd]. repeat split. exists []. now rewrite app_nil_r.
Qed.

(** X11.  For a symbol routed to the vendor [/history] and
    [/fundamentals] each send exactly one request, the first thing they
    do: [/history] to the history URL with a timeout of 5 s,
    [/fundamentals] to the company-info URL with a timeout of 3 s; both
    carry the canonical symbol and the user and password of the
    environment as query parameters. *)
Theorem vendor_requests_carry_canonical_symbol
    (symbol period : string) (env : Env) (st : State) :
  is_indian_stock symbol = true ->
  (exists params rest,
     trace (snd (get_history symbol period env st))
     = (trace st ++
        EvGet "https://history.truedata.in/gethistory" params 5 :: rest)%list
     /\ vendor_calls rest = []
     /\ assoc "symbol" params = Some (PStr (get_clean_symbol symbol))
     /\ assoc "response" params = Some (PStr "json")
     /\ assoc "user" params = Some (of_getenv (TD_USER env))
     /\ assoc "pass" params = Some (of_getenv (TD_PASS env)))
  /\ (exists rest,
        trace (snd (get_fundamentals symbol env st))
        = (trace st ++
           EvGet "https://api.truedata.in/fundamental/company_info"
             [ ("symbol", PStr (get_clean_symbol symbol));
               ("user", of_getenv (TD_USER env));
               ("pass", of_getenv (TD_PASS env)) ] 3 :: rest)%list
        /\ vendor_calls rest = []).
Proof.
  intros Hv. split.
  - destruct (get_history_vendor_trace symbol period env st Hv)
      as (rest & Htrace & Hrest).
    do 2 eexists. split; [exact Htrace|]. split; [exact Hrest|].
    repeat split; reflexivity.
  - destruct (get_fundamentals_state symbol env st)
      as (_ & _ & _ & rest & Hrest & Htrace).
    rewrite Hv in Htrace. exists rest. split; [exact Htrace | exact Hrest].
Qed.

(** X11 in the example process, whose credentials are "user" and
    "secret". *)
Lemma vendor_requests_carry_canonical_symbol_witness :
  exists rest,
    trace (snd (get_fundamentals "TCS.NS"
                  (Example.connected Example.td_cached Example.timeout)
                  (Example.state_with Example.td_cached)))
    = ([] ++
       EvGet "https://api.truedata.in/fundamental/company_info"
         [ ("symbol", PStr "TCS"); ("user", PStr "user");
           ("pass", PStr "secret") ] 3 :: rest)%list
    /\ vendor_calls rest = [].
Proof.
  exact (proj2 (vendor_requests_carry_canonical_symbol "TCS.NS" "1mo"
                  (Example.connected Example.td_cached Example.timeout)
                  (Example.state_with Example.td_cached) eq_refl)).
Defined.

(** ** [/fundamentals] *)

(** X12.  When the vendor answers 200 with a JSON object, every ratio and
    target of the record is the vendor's value under the vendor's key
    ([pe], [peg], [target_price], [target_low], [target_high] and the
    others by their own name), 0 when the object lacks the key; the
    recommendation is "N/A" when lacking; a value that is present is
    passed on as it is, [null] included; and the currency is "INR"
    whatever the object says. *)
Theorem fundamentals_fields_from_vendor
    (symbol : string) (env : Env) (st : State)
    (response : Response) (items : list (string * pyval)) :
  is_indian_stock symbol = true ->
  fundamentals_request env symbol = Ok response ->
  status_code response = 200 ->
  json response = Ok (PDict items) ->
  let get key dflt :=
    match assoc key items with Some v => v | None => dflt end in
  fst (get_fundamentals symbol env st) =
  Ok (PDict
        [ ("market_cap", get "market_cap" (PInt 0));
          ("pe_ratio", get "pe" (PInt 0));
          ("peg_ratio", get "peg" (PInt 0));
          ("book_value", get "book_value" (PInt 0));
          ("dividend_yield", get "dividend_yield" (PInt 0));
          ("eps", get "eps" (PInt 0));
          ("profit_margin", get "profit_margin" (PInt 0));
          ("roe", get "roe" (PInt 0));
          ("debt_to_equity", get "debt_to_equity" (PInt 0));
          ("shareholding", get "shareholding" (PDict []));
          ("forecast",
           PDict [ ("recommendation", get "recommendation" (PStr "N/A"));
                   ("targetMean", get "target_price" (PInt 0));
                   ("targetLow", get "target_low" (PInt 0));
                   ("targetHigh", get "target_high" (PInt 0)) ]);
          ("currency", PStr "INR") ]).
Proof.
  intros Hv Hreq Hstatus Hjson get.
  rewrite (get_fundamentals_vendor symbol env st Hv). cbv zeta.
  rewrite Hreq, Hstatus, Hjson. reflexivity.
Qed.

(** X12 on a vendor that reports the market capitalisation, a price to
    earnings ratio and a dollar currency. *)
Lemma fundamentals_fields_from_vendor_witness :
  exists record,
    fst (get_fundamentals "TCS.NS"
           (Example.connected Example.td_cached
              (Example.ok_json Example.company_info))
           (Example.state_with Example.td_cached)) = Ok record
    /\ field record "market_cap" = Some (PInt 1400000)
    /\ field record "pe_ratio" = Some (PFloat (43 # 2))
    /\ field record "roe" = Some (PInt 0)
    /\ field record "currency" = Some (PStr "INR").
Proof.
  eexists. split.
  - exact (fundamentals_fields_from_vendor "TCS.NS"
             (Example.connected Example.td_cached
                (Example.ok_json Example.company_info))
             (Example.state_with Example.td_cached)
             {| status_code := 200; json := Ok Example.company_info |}
             [ ("market_cap", PInt 1400000); ("pe", PFloat (43 # 2)) ]
             eq_refl eq_refl eq_refl eq_refl).
  - repeat split; reflexivity.
Defined.

(** X13.  When the vendor answers 200 with a body that is JSON but no
    object (a list, a string, a number, [null]), [/fundamentals] answers
    the default record, as for a failed call. *)
Theorem fundamentals_non_object_is_default
    (symbol : string) (env : Env) (st : State)
    (response : Response) (body : pyval) :
  fundamentals_request env symbol = Ok response ->
  status_code response = 200 ->
  json response = Ok body ->
  type_name body <> "dict" ->
  fst (get_fundamentals symbol env st) = Ok (empty_data symbol).
Proof.
  intros Hreq Hstatus Hjson Hbody.
  apply get_fundamentals_failure. unfold fundamentals_fails.
  rewrite Hreq. right. rewrite Hjson.
  destruct body; cbn; eauto. now contradict Hbody.
Qed.

(** X13 on a vendor that answers 200 with the empty list. *)
Lemma fundamentals_non_object_is_default_witness :
  fst (get_fundamentals "TCS.NS"
         (Example.connected Example.td_cached (Example.ok_json (PList [])))
         (Example.state_with Example.td_cached))
  = Ok (empty_data "TCS.NS").
Proof.
  apply (fundamentals_non_object_is_default "TCS.NS"
           (Example.connected Example.td_cached (Example.ok_json (PList [])))
           (Example.state_with Example.td_cached)
           {| status_code := 200; json := Ok (PList []) |} (PList []));
    try reflexivity.
  discriminate.
Defined.

(** ** All handlers *)

Lemma get_history_answers (symbol period : string) (env : Env) (st : State) :
  exists resp, fst (get_history symbol period env st) = Ok resp.
Proof.
  destruct (is_indian_stock symbol) eqn:Hr.
  - rewrite (get_history_vendor symbol period env st Hr). cbv zeta.
    destruct (history_request env symbol period) as [response|e];
      [destruct (status_code response =? 200);
       [destruct (parse_history response)|]|];
      try mock_total; cbn [fst]; eauto.
  - rewrite (get_history_mock symbol period env st Hr).
    mock_total. cbn [fst]. eauto.
Qed.

Lemma get_fundamentals_answers (symbol : string) (env : Env) (st : State) :
  exists resp, fst (get_fundamentals symbol env st) = Ok resp.
Proof.
  destruct (is_indian_stock symbol) eqn:Hr.
  - rewrite (get_fundamentals_vendor symbol env st Hr). cbv zeta.
    destruct (fundamentals_request env symbol) as [response|e];
      [destruct (status_code response =? 200);
       [destruct (obind (json response) _)|]|];
      cbn [fst]; eauto.
  - rewrite (get_fundamentals_mock symbol env st Hr). cbn [fst]. eauto.
Qed.

(** X14.  Every handler answers every request: whatever the symbol, the
    period, the state of the session and the behaviour of the vendor
    (exceptions, any status, any body), none of [/quote], [/history],
    [/fundamentals] and [/news] raises. *)
Theorem handlers_always_answer
    (symbol period : string) (env : Env) (st : State) :
  (exists resp, fst (get_quote symbol env st) = Ok resp)
  /\ (exists resp, fst (get_history symbol period env st) = Ok resp)
  /\ (exists resp, fst (get_fundamentals symbol env st) = Ok resp)
  /\ (exists resp, fst (get_news symbol env st) = Ok resp).
Proof.
  split; [|split; [|split]].
  - destruct (get_quote_answer symbol env st) as (resp & Hresp & _). eauto.
  - apply get_history_answers.
  - apply get_fundamentals_answers.
  - unfold get_news, ret. cbn [fst]. eauto.
Qed.

(** X15.  No handler replaces or drops the session handle; only
    [/quote] ever sleeps; [/fundamentals] and [/news] draw no random
    sample, [/history] draws none or the 60 of a mock series, and
    [/news] leaves the whole state as it is. *)
Theorem handlers_keep_session
    (symbol period : string) (env : Env) (st : State) :
  td_app (snd (get_quote symbol env st)) = td_app st
  /\ (td_app (snd (get_history symbol period env st)) = td_app st
      /\ clock (snd (get_history symbol period env st)) = clock st
      /\ (rng (snd (get_history symbol period env st)) = rng st
          \/ rng (snd (get_history symbol period env st))
             = (rng st + 60)%nat))
  /\ (td_app (snd (get_fundamentals symbol env st)) = td_app st
      /\ clock (snd (get_fundamentals symbol env st)) = clock st
      /\ rng (snd (get_fundamentals symbol env st)) = rng st)
  /\ snd (get_news symbol env st) = st.
Proof.
  split; [|split; [|split]].
  - apply (get_quote_state symbol env st).
  - apply (get_history_state symbol period env st).
  - destruct (get_fundamentals_state symbol env st) as (H1 & H2 & H3 & _).
    auto.
  - reflexivity.
Qed.

(** ** Start-up, shut-down and the life of the session *)

(** What the start-up does, by the user name and the outcome of the
    connection. *)
Lemma startup_event_run (env : Env) (st : State) :
  startup_event env st =
  if getenv_truthy (TD_USER env) then
    let user := default "" (TD_USER env) in
    let hello :=
      EvPrint [PStr "Connecting to TrueData ("; PStr user;
               PStr ") on Port "; PInt TD_PORT; PStr "..."] in
    let connect := EvConnect user (TD_PASS env) TD_PORT in
    match TD_connect env user (TD_PASS env) TD_PORT with
    | Ok td =>
        (Ok tt,
         {| td_app := Some td; rng := rng st; clock := clock st;
            trace := trace st ++
                     [hello; connect;
                      EvPrint [PStr "TrueData Connected Successfully!"]] |})
    | Raise e =>
        (Ok tt,
         after st [hello; connect;
                   EvPrint [PStr "TrueData Connection Failed: ";
                            PStr (exn_str e)]] 0)
    end
  else
    (Ok tt,
     after st [EvPrint [PStr "TrueData credentials missing in .env file."]] 0).
Proof.
  unfold startup_event. run. unfold after.
  destruct (getenv_truthy (TD_USER env)); simpl.
  - destruct (TD_connect env _ (TD_PASS env) TD_PORT); simpl;
      rewrite ?Nat.add_0_r, <- ?app_assoc; reflexivity.
  - now rewrite Nat.add_0_r.
Qed.

(** What the shut-down does, by the session and the outcome of the
    disconnection. *)
Lemma shutdown_event_run (env : Env) (st : State) :
  shutdown_event env st =
  match td_app st with
  | Some td =>
      let bye := EvPrint [PStr "Disconnecting TrueData to release session..."] in
      (Ok tt,
       after st
         [bye; EvDisconnect;
          match disconnect td with
          | Ok _ => EvPrint [PStr "TrueData Disconnected."]
          | Raise e => EvPrint [PStr "Disconnect error: "; PStr (exn_str e)]
          end] 0)
  | None => (Ok tt, st)
  end.
Proof.
  unfold shutdown_event. run. unfold after.
  destruct (td_app st) as [td|] eqn:Htd; [|reflexivity].
  run. destruct (disconnect td) as [[]|e]; simpl;
    rewrite Htd, ?Nat.add_0_r, <- ?app_assoc; reflexivity.
Qed.

(** X16.  The start-up never fails.  Without a user name, or with an
    empty one, it attempts nothing and leaves the session as it is; with
    a user name it attempts exactly one connection, on port 8086 with the
    user name and whatever password the environment has, even none, and
    the session is the connection when that succeeds and stays as it was
    when it raises. *)
Theorem startup_connects_once_and_never_fails (env : Env) (st : State) :
  exists st',
    startup_event env st = (Ok tt, st')
    /\ rng st' = rng st /\ clock st' = clock st
    /\ match TD_USER env with
       | None | Some EmptyString =>
           td_app st' = td_app st
           /\ vendor_calls (trace st') = vendor_calls (trace st)
       | Some user =>
           vendor_calls (trace st')
           = (vendor_calls (trace st)
              ++ [EvConnect user (TD_PASS env) 8086])%list
           /\ td_app st'
              = match TD_connect env user (TD_PASS env) 8086 with
                | Ok td => Some td
                | Raise _ => td_app st
                end
       end.
Proof.
  rewrite startup_event_run.
  destruct (TD_USER env) as [[|c user]|];
    cbv [getenv_truthy default from_option id].
  - eexists. split; [reflexivity|]. unfold after. cbn.
    rewrite vendor_calls_app, app_nil_r, Nat.add_0_r. auto.
  - cbv zeta. change TD_PORT with 8086.
    destruct (TD_connect env (String c user) (TD_PASS env) 8086);
      eexists; (split; [reflexivity|]); unfold after; cbn;
      rewrite vendor_calls_app, ?Nat.add_0_r; auto.
  - eexists. split; [reflexivity|]. unfold after. cbn.
    rewrite vendor_calls_app, app_nil_r, Nat.add_0_r. auto.
Qed.

(** X17.  The shut-down never fails, also when the disconnection raises;
    it disconnects exactly once when there is a session and calls nothing
    when there is none; it leaves the session handle in place. *)
Theorem shutdown_disconnects_once_and_never_fails (env : Env) (st : State) :
  exists st',
    shutdown_event env st = (Ok tt, st')
    /\ td_app st' = td_app st
    /\ vendor_calls (trace st')
       = (vendor_calls (trace st)
          ++ match td_app st with
             | Some _ => [EvDisconnect]
             | None => []
             end)%list.
Proof.
  rewrite shutdown_event_run.
  destruct (td_app st) as [td|] eqn:Htd.
  - eexists. split; [reflexivity|]. unfold after. cbn.
    rewrite vendor_calls_app. split; [exact Htd|].
    destruct (disconnect td); reflexivity.
  - eexists. split; [reflexivity|]. rewrite Htd, app_nil_r. auto.
Qed.

(** X18.  From start-up through a [/quote] request to shut-down the
    process never fails, and its vendor calls are: none without a user
    name; the one connection attempt alone when that attempt raises; and
    otherwise the connection, the subscription if the symbol is routed to
    the vendor, and one disconnection, so a session that was opened is
    always released, exactly once. *)
Theorem session_released_after_quote (symbol : string) (env : Env) :
  let run := lifecycle (get_quote symbol) env initial_state in
  (exists resp, fst run = Ok resp)
  /\ vendor_calls (trace (snd run)) =
     match TD_USER env with
     | None | Some EmptyString => []
     | Some user =>
         EvConnect user (TD_PASS env) 8086
         :: match TD_connect env user (TD_PASS env) 8086 with
            | Ok _ =>
                (if is_indian_stock symbol
                 then [EvStartLiveData [get_clean_symbol symbol]]
                 else [])
                ++ [EvDisconnect]
            | Raise _ => []
            end
     end%list.
Proof.
  cbv zeta. unfold lifecycle, bind. rewrite startup_event_run.
  assert (Hstep : forall st1,
            exists resp st2,
              get_quote symbol env st1 = (Ok resp, st2)
              /\ td_app st2 = td_app st1
              /\ vendor_calls (trace st2)
                 = (vendor_calls (trace st1) ++ quote_calls symbol st1)%list).
  { intros st1.
    destruct (get_quote_answer symbol env st1) as (resp & Hresp & _).
    destruct (get_quote_state symbol env st1) as (Htd & _ & Hcalls).
    destruct (get_quote symbol env st1) as [o st2]. cbn [fst snd] in *.
    subst o. eauto. }
  destruct (TD_USER env) as [[|c user]|];
    cbv [getenv_truthy default from_option id]; cbv zeta.
  - match goal with
    | |- context [get_quote symbol env ?s] =>
        destruct (Hstep s) as (resp & st2 & -> & Htd & Hcalls)
    end.
    rewrite shutdown_event_run. cbn [td_app after initial_state] in Htd.
    rewrite Htd. unfold ret. cbn [fst snd].
    split; [eauto|]. rewrite Hcalls. unfold quote_calls. cbn.
    now destruct (is_indian_stock symbol).
  - change TD_PORT with 8086.
    destruct (TD_connect env (String c user) (TD_PASS env) 8086) as [td|e].
    + match goal with
      | |- context [get_quote symbol env ?s] =>
          destruct (Hstep s) as (resp & st2 & -> & Htd & Hcalls)
      end.
      rewrite shutdown_event_run. cbn [td_app] in Htd.
      rewrite Htd. unfold ret, after. cbn [fst snd trace].
      split; [eauto|]. rewrite vendor_calls_app, Hcalls.
      unfold quote_calls. cbn [td_app trace initial_state app].
      destruct (disconnect td), (is_indian_stock symbol); reflexivity.
    + match goal with
      | |- context [get_quote symbol env ?s] =>
          destruct (Hstep s) as (resp & st2 & -> & Htd & Hcalls)
      end.
      rewrite shutdown_event_run. cbn [td_app after initial_state] in Htd.
      rewrite Htd. unfold ret. cbn [fst snd].
      split; [eauto|]. rewrite Hcalls. unfold quote_calls. cbn.
      now destruct (is_indian_stock symbol).
  - match goal with
    | |- context [get_quote symbol env ?s] =>
        destruct (Hstep s) as (resp & st2 & -> & Htd & Hcalls)
    end.
    rewrite shutdown_event_run. cbn [td_app after initial_state] in Htd.
    rewrite Htd. unfold ret. cbn [fst snd].
    split; [eauto|]. rewrite Hcalls. unfold quote_calls. cbn.
    now destruct (is_indian_stock symbol).
Qed.

(** X19.  In a process started with a user name, a symbol routed to the
    vendor is answered "Disconnected" when the connection attempt of the
    start-up raised, and from the tick when the connection succeeded and
    the tick of the subscription is cached. *)
Theorem quote_after_startup (symbol user : string) (env : Env) :
  TD_USER env = Some user ->
  user <> "" ->
  is_indian_stock symbol = true ->
  let answer := fst (serve (get_quote symbol) env initial_state) in
  (forall e,
     TD_connect env user (TD_PASS env) 8086 = Raise e ->
     answer = Ok (PDict [ ("symbol", PStr symbol); ("price", PInt 0);
                          ("status", PStr "Disconnected") ]))
  /\ (forall td req_id rest tick,
        TD_connect env user (TD_PASS env) 8086 = Ok td ->
        start_live_data td [get_clean_symbol symbol] = Ok (req_id :: rest) ->
        live_data td 0 !! req_id = Some tick ->
        answer = Ok (quote_of_tick symbol tick)).
Proof.
  intros Huser Hne Hv answer. subst answer.
  unfold serve, bind. rewrite startup_event_run, Huser.
  destruct user as [|c user]; [now contradict Hne|].
  cbv [getenv_truthy default from_option id]. cbv zeta.
  change TD_PORT with 8086. split.
  - intros e ->. now rewrite (get_quote_vendor symbol env _ Hv).
  - intros td req_id rest tick -> Hstart Htick.
    rewrite (get_quote_vendor symbol env _ Hv). cbv zeta.
    cbn [td_app clock initial_state]. now rewrite Hstart, Htick.
Qed.

(** X19 on the examples: a connection that is refused, and one that
    succeeds with the tick cached. *)
Lemma quote_after_startup_witness :
  fst (serve (get_quote "TCS.NS")
         (Example.env (Some "user") (Some "secret")
            (Raise (Exception "ConnectionError" "refused")) Example.timeout)
         initial_state)
  = Ok (PDict [ ("symbol", PStr "TCS.NS"); ("price", PInt 0);
                ("status", PStr "Disconnected") ])
  /\ fst (serve (get_quote "TCS.NS")
            (Example.connected Example.td_cached Example.timeout)
            initial_state)
     = Ok (quote_of_tick "TCS.NS" Example.tick).
Proof.
  split.
  - refine (proj1 (quote_after_startup "TCS.NS" "user"
                     (Example.env (Some "user") (Some "secret")
                        (Raise (Exception "ConnectionError" "refused"))
                        Example.timeout)
                     eq_refl _ eq_refl) _ eq_refl).
    discriminate.
  - refine (proj2 (quote_after_startup "TCS.NS" "user"
                     (Example.connected Example.td_cached Example.timeout)
                     eq_refl _ eq_refl)
              Example.td_cached 7 [] Example.tick eq_refl eq_refl eq_refl).
    discriminate.
Defined.

(** ** The mock series *)

(** X20.  Whatever the base price and the float arithmetic, the mock
    generator returns 30 candles, draws exactly 60 samples and touches
    nothing else of the state; the series is a function of the
    environment and of the position in the random stream alone. *)
Theorem mock_history_draws_sixty_samples
    (base_price : Q) (env : Env) (st : State) :
  exists candles,
    generate_mock_history base_price env st
    = (Ok (PList candles),
       {| td_app := td_app st; rng := rng st + 60; clock := clock st;
          trace := trace st |})
    /\ length candles = 30%nat
    /\ forall st',
         rng st' = rng st ->
         fst (generate_mock_history base_price env st') = Ok (PList candles).
Proof.
  destruct (generate_mock_history_total base_price env st)
    as (candles & Hrun & Hlen).
  exists candles. split; [exact Hrun|]. split; [exact Hlen|].
  intros st' Hrng.
  rewrite (generate_mock_history_rng base_price env st' st Hrng).
  now rewrite Hrun.
Qed.

Section MockPrices.

Local Open Scope Q_scope.

Variable env : Env.

Hypothesis fl_monotone : forall x y : Q, x <= y -> fl env x <= fl env y.
Hypothesis fl_accurate :
  forall x : Q,
    - (100000) <= x <= 100000 ->
    x - (1 # 1000000000) <= fl env x <= x + (1 # 1000000000).
Hypothesis fl_integer :
  forall z : Z, (Z.abs z <= 2 ^ 53)%Z -> fl env (inject_Z z) == inject_Z z.
Hypothesis fl_idempotent : forall x : Q, fl env (fl env x) == fl env x.
Hypothesis random_unit : forall n : nat, 0 <= random_stream env n < 1.

Lemma default_walk_bounds (k : nat) :
  (k <= 30)%nat ->
  60 <= 150 * qpow (97 # 100) k /\ 150 * qpow (103 # 100) k <= 365.
Proof.
  intros Hk.
  do 31 (destruct k as [|k]; [vm_compute; split; discriminate|]).
  lia.
Qed.

Lemma mock_candle_within (dt : Z) (p u : Q) :
  60 <= p <= 365 -> fl env p == p ->
  (1000 <= int_of_float u <= 10000)%Z ->
  candle_within 50 400 (mock_candle env dt p u).
Proof.
  intros Hp Hfix Hu.
  destruct (mock_candle_shape env fl_monotone fl_accurate fl_integer
              dt p u ltac:(lra) Hfix Hu)
    as (open & high & low & close & volume & Heq & Hord & _ & Hhigh & Hlow & _).
  unfold mock_candle in Heq. injection Heq as Ho Hh Hl Hc _.
  pose proof (round2_near env fl_accurate p ltac:(lra)) as Hnear.
  rewrite Hc in Hnear.
  apply Qabs_Qle_condition in Hhigh, Hlow.
  exists open, high, low, close. unfold mock_candle. cbn [field assoc String.eqb].
  rewrite Ho, Hh, Hl, Hc. cbn.
  repeat split; try reflexivity; lra.
Qed.

Lemma mock_loop_within (range : list nat) :
  forall (k : nat) (p : Q) (data : list pyval) (st : State),
    (k + length range <= 30)%nat ->
    150 * qpow (97 # 100) k <= p <= 150 * qpow (103 # 100) k ->
    fl env p == p ->
    Forall (candle_within 50 400) data ->
    exists out,
      fst (mock_loop range (now env) p data env st) = Ok out
      /\ Forall (candle_within 50 400) out.
Proof.
  induction range as [|i range IH]; intros k p data st Hk Hp Hfix Hdata.
  - exists data. split; [reflexivity | exact Hdata].
  - simpl in Hk. cbn [mock_loop]. unfold uniform, random. run.
    set (r := random_stream env (rng st)).
    set (p' := fl env (p * fl env (1 + fl env (fl env (r - (1 # 2))
                                               * fl env (3 # 100))))).
    destruct (default_walk_bounds k ltac:(lia)) as [Hlo Hhi].
    destruct (default_walk_bounds (S k) ltac:(lia)) as [Hlo' Hhi'].
    pose proof (price_step env fl_accurate p r (150 * qpow (97 # 100) k)
                  (150 * qpow (103 # 100) k)
                  ltac:(lra) Hp ltac:(lra) (random_unit (rng st))) as Hstep.
    fold p' in Hstep. cbn [qpow] in Hlo', Hhi'.
    assert (Hp' : 150 * qpow (97 # 100) (S k) <= p'
                  <= 150 * qpow (103 # 100) (S k))
      by (cbn [qpow]; lra).
    apply (IH (S k) p'); [lia | exact Hp' | apply fl_idempotent |].
    apply Forall_app. split; [exact Hdata|].
    constructor; [|constructor].
    apply mock_candle_within.
    + cbn [qpow] in Hp'. lra.
    + apply fl_idempotent.
    + apply (uniform_volume_band env fl_monotone fl_integer), random_unit.
Qed.

(** X21.  With the default base price of 150 every candle of the mock
    series has its four prices between 50 and 400, ordered
    low <= open <= close <= high: the random walk of at most 1.5 % a day
    can neither reach zero nor run away within the 30 days. *)
Theorem mock_history_prices_within (st : State) :
  exists candles,
    fst (generate_mock_history default_base_price env st) = Ok (PList candles)
    /\ Forall (candle_within 50 400) candles.
Proof.
  destruct (mock_loop_within (seq 0 30) 0 default_base_price [] st)
    as (out & Hout & Hall).
  - simpl. lia.
  - unfold default_base_price. cbn [qpow]. lra.
  - apply (fl_integer 150). lia.
  - constructor.
  - exists out. unfold generate_mock_history, bind, ask, ret.
    destruct (mock_loop (seq 0 30) (now env) default_base_price [] env st)
      as [[o|e] s]; simpl in Hout; [|discriminate].
    injection Hout as ->. split; [reflexivity | exact Hall].
Qed.

End MockPrices.

(** X21 in the example environment. *)
Lemma mock_history_prices_within_witness :
  exists candles,
    fst (generate_mock_history default_base_price
           (Example.connected Example.td_cached Example.timeout)
           initial_state) = Ok (PList candles)
    /\ Forall (candle_within 50 400) candles.
Proof.
  exact (mock_history_prices_within
           (Example.connected Example.td_cached Example.timeout)
           (example_fl_monotone _ _ _ _)
           (example_fl_accurate _ _ _ _)
           (example_fl_integer _ _ _ _)
           (example_fl_idempotent _ _ _ _)
           (example_random_unit _ _ _ _)
           initial_state).
Defined.

(** ** [/news] *)



(** ** Symbols routed to the mock *)

(** X23.  A symbol routed to the mock never reaches the vendor, even in a
    process that has a session and credentials: [/quote] and [/history]
    add nothing to the trace, and [/fundamentals] answers the default
    record in "USD" and leaves the state as it is. *)
Theorem mock_symbols_never_reach_vendor
    (symbol period : string) (env : Env) (st : State) :
  is_indian_stock symbol = false ->
  trace (snd (get_quote symbol env st)) = trace st
  /\ trace (snd (get_history symbol period env st)) = trace st
  /\ get_fundamentals symbol env st = (Ok (empty_data symbol), st)
  /\ field (empty_data symbol) "currency" = Some (PStr "USD").
Proof.
  intros Hm. split; [|split; [|split]].
  - destruct (get_quote_mock symbol env st Hm) as (p & c & cp & ->).
    reflexivity.
  - rewrite (get_history_mock symbol period env st Hm). mock_total.
    reflexivity.
  - apply (get_fundamentals_mock symbol env st Hm).
  - unfold empty_data. rewrite Hm. reflexivity.
Qed.

(** X23 on "AAPL" in a connected process. *)
Lemma mock_symbols_never_reach_vendor_witness :
  trace (snd (get_quote "AAPL"
                (Example.connected Example.td_cached Example.timeout)
                (Example.state_with Example.td_cached))) = []
  /\ trace (snd (get_history "AAPL" "1y"
                   (Example.connected Example.td_cached Example.timeout)
                   (Example.state_with Example.td_cached))) = []
  /\ get_fundamentals "AAPL"
       (Example.connected Example.td_cached Example.timeout)
       (Example.state_with Example.td_cached)
     = (Ok (empty_data "AAPL"), Example.state_with Example.td_cached)
  /\ field (empty_data "AAPL") "currency" = Some (PStr "USD").
Proof.
  exact (mock_symbols_never_reach_vendor "AAPL" "1y"
           (Example.connected Example.td_cached Example.timeout)
           (Example.state_with Example.td_cached) eq_refl).
Defined.
